(** * simple-db: a JSON file holding named collections of records

    Shallow embedding of [src/db.ts] (class [AsyncJSONFileBasedDB]) and of
    its sibling variant (class [SimpleDB]), both built on the same
    [AsyncJSONFile] wrapper around one file path.

    The two external collaborators are kept abstract:
    - [JSON.parse] / [JSON.stringify] are the operations of the class
      [JSONCodec]; the only law ever assumed about them is the round trip
      [Lossless], and only by the statements that read back what was
      written;
    - the file system is the field [file] of [World]; steno's [Writer] is
      modelled by its sequential effect (replace the whole content).

    Every call of [storage.read] and [storage.write] is recorded in the
    [trace] of the world, so that the number and the order of the storage
    accesses of an operation can be stated.

    The stores look their collection up with [allEntities[this.collection]],
    a property read: it finds the own key of the document, and, failing
    that, a member inherited from [Object.prototype] ([get_property]). The
    stores then treat that member as an array and throw a [TypeError]. *)

From stdpp Require Import gmap strings list fin_maps.
From Stdlib Require Import ZArith.

Local Open Scope string_scope.
Local Open Scope list_scope.
Local Open Scope Z_scope.

(** ** Values *)

(** A JSON value, as [JSON.parse] builds it. The store never looks inside a
    number; integers stand for them. *)
#[warnings="-register-all"]
Inductive json : Type :=
| JNull
| JBool (b : bool)
| JNum (n : Z)
| JStr (s : string)
| JArr (items : list json)
| JObj (fields : gmap string json).

(** [T extends IDatabaseEntity]: an object; [id] is one of its fields. *)
Abbreviation Entity := (gmap string json).

(** [ICollection<T>]: [{ [name: string]: T[] }]. *)
Abbreviation Document := (gmap string (list (gmap string json))).

(** The falsy values [JSON.parse] can return: [null], [false], zero and the
    empty string. *)
Inductive falsy : Type := FNull | FFalse | FZero | FEmptyStr.

(** What [read] hands to the store: the declared [ICollection<T>], or one of
    the falsy values on which every [if (entities)] of the store branches.
    Truthy content of any other shape is outside the declared type of
    [parse] and outside this development. *)
Inductive decoded : Type :=
| Falsy (f : falsy)
| Doc (d : Document).

(** Thrown values. A Node.js system error carries [code]; a [SyntaxError]
    of [JSON.parse] does not, nor does the [TypeError] the engine throws
    when a value is spread that is not iterable or a method is called that
    is not there (its message is engine text and is left out). *)
Inductive exn : Type :=
| ErrnoException (code : string)
| SyntaxError (message : string)
| TypeError.

(** [(e as NodeJS.ErrnoException).code] *)
Definition code (e : exn) : option string :=
  match e with
  | ErrnoException c => Some c
  | SyntaxError _ => None
  | TypeError => None
  end.

(** [type Parse<TData> = (value: string) => TData], with [JSON.stringify]. *)
Class JSONCodec : Type := {
  text : Type;
  (** [inl message]: [JSON.parse] throws [SyntaxError(message)] *)
  parse : text -> string + decoded;
  stringify : Document -> text
}.

(** [JSON.parse(JSON.stringify(d))] is [d] again. *)
Class Lossless (C : JSONCodec) : Prop :=
  parse_stringify : forall d : Document, parse (stringify d) = inr (Doc d).

(** ** The world: one file path and the accesses made to it *)

(** [Absent]: [readFile] fails with [ENOENT]. [Faulty errno]: it fails with
    that system error ([EACCES], [EISDIR], ...). [Content t]: it returns
    [t]. *)
Inductive file_status {C : JSONCodec} : Type :=
| Absent
| Faulty (errno : string)
| Content (t : text).

Inductive event : Type :=
| EvRead
| EvWrite (data : Document).

(** [wfault = Some errno]: writing to the path fails with that system
    error. *)
Record World {C : JSONCodec} : Type := mkWorld {
  file : file_status;
  wfault : option string;
  trace : list event
}.

(** Number of [read] calls and of [write] calls in a trace. *)
Definition is_read (ev : event) : bool :=
  match ev with EvRead => true | EvWrite _ => false end.

Definition is_write (ev : event) : bool :=
  match ev with EvWrite _ => true | EvRead => false end.

Definition reads (tr : list event) : nat := length (List.filter is_read tr).

Definition writes (tr : list event) : nat := length (List.filter is_write tr).

(** ** Promises, run one at a time

    An [async] method is a function of the world that either resolves with
    a value or rejects with the thrown value; [await] sequences two of them
    and lets a rejection through. *)
Definition Promise {C : JSONCodec} (A : Type) : Type :=
  World -> (exn + A) * World.

Definition resolve {C : JSONCodec} {A : Type} (a : A) : Promise A :=
  fun w => (inr a, w).

Definition reject {C : JSONCodec} {A : Type} (e : exn) : Promise A :=
  fun w => (inl e, w).

Definition await {C : JSONCodec} {A B : Type}
    (m : Promise A) (k : A -> Promise B) : Promise B :=
  fun w =>
    match m w with
    | (inr a, w') => k a w'
    | (inl e, w') => (inl e, w')
    end.

(** [try { m } catch (e) { h e }] *)
Definition try_catch {C : JSONCodec} {A : Type}
    (m : Promise A) (h : exn -> Promise A) : Promise A :=
  fun w =>
    match m w with
    | (inl e, w') => h e w'
    | (inr a, w') => (inr a, w')
    end.

Notation "'let!' x ':=' m 'in' k" := (await m (fun x => k))
  (at level 10, x pattern, m at level 100, k at level 200).

(** Calling a function that may throw. *)
Definition lift {C : JSONCodec} {A : Type} (r : exn + A) : Promise A :=
  fun w => (r, w).

(** The world with one more storage access in its trace. *)
Definition record {C : JSONCodec} (ev : event) (w : World) : World :=
  mkWorld C (file w) (wfault w) (trace w ++ [ev]).

Definition emit {C : JSONCodec} (ev : event) : Promise unit :=
  fun w => (inr tt, record ev w).

(** Result and final world of a run. *)
Definition result {C : JSONCodec} {A : Type} (m : Promise A) (w : World)
  : exn + A := fst (m w).

Definition after {C : JSONCodec} {A : Type} (m : Promise A) (w : World)
  : World := snd (m w).

(** The storage accesses a run adds to the trace. *)
Definition accesses {C : JSONCodec} {A : Type} (m : Promise A) (w : World)
  : list event := drop (length (trace w)) (trace (after m w)).

(** How many reads and how many writes a run makes. *)
Definition reads_writes {C : JSONCodec} {A : Type} (m : Promise A)
    (w : World) : nat * nat :=
  (reads (accesses m w), writes (accesses m w)).

(** ** JavaScript operations the store uses *)

(** [entity.id === id] for a string [id]. *)
Definition has_id (id : string) (entity : Entity) : bool :=
  match entity !! "id" with
  | Some (JStr s) => String.eqb s id
  | _ => false
  end.

(** [{ ...a, ...b }]: the properties of [b] win. *)
Definition object_spread (a b : Entity) : Entity := b ∪ a.

(** [{ ...v }] for what [read] returned: a falsy value has no own
    enumerable property. *)
Definition spread (v : decoded) : Document :=
  match v with
  | Doc d => d
  | Falsy _ => ∅
  end.

(** The property names of [Object.prototype]. Every object [JSON.parse] or
    an object literal builds inherits them. *)
Definition Object_prototype : list string :=
  [ "constructor"; "__defineGetter__"; "__defineSetter__"; "hasOwnProperty";
    "__lookupGetter__"; "__lookupSetter__"; "isPrototypeOf";
    "propertyIsEnumerable"; "toString"; "valueOf"; "__proto__";
    "toLocaleString" ].

Definition inherited (name : string) : bool :=
  existsb (String.eqb name) Object_prototype.

(** What [o[name]] evaluates to. [Records l]: the own property, an array.
    [Member name]: no own property of that name, but one inherited from
    [Object.prototype]: a function, or the prototype itself for
    [__proto__]; it is truthy, it cannot be spread into an array and it
    has no [find] and no [findIndex]. [Nullish]: [undefined] (or the
    [null] the stores put in its place). *)
Inductive property : Type :=
| Records (l : list Entity)
| Member (name : string)
| Nullish.

(** [o[name]] for a document [o]. *)
Definition get_property (o : Document) (name : string) : property :=
  match o !! name with
  | Some l => Records l
  | None => if inherited name then Member name else Nullish
  end.

(** [p ? [...p, x] : [x]] *)
Definition appended (p : property) (x : Entity) : exn + list Entity :=
  match p with
  | Records l => inr (l ++ [x])
  | Member _ => inl TypeError
  | Nullish => inr [x]
  end.

(** [p ?? []] *)
Definition or_empty (p : property) : property :=
  match p with
  | Nullish => Records []
  | _ => p
  end.

Module Array.

(** [l.find(p)]; [None] is [undefined]. *)
Fixpoint find {A : Type} (p : A -> bool) (l : list A) : option A :=
  match l with
  | [] => None
  | x :: l' => if p x then Some x else find p l'
  end.

Fixpoint findIndex_from {A : Type} (k : Z) (p : A -> bool) (l : list A) : Z :=
  match l with
  | [] => -1
  | x :: l' => if p x then k else findIndex_from (k + 1) p l'
  end.

(** [l.findIndex(p)]: the first index where [p] holds, [-1] when none. *)
Definition findIndex {A : Type} (p : A -> bool) (l : list A) : Z :=
  findIndex_from 0 p l.

(** [l[i]]; [None] is [undefined]. *)
Definition get {A : Type} (l : list A) (i : Z) : option A :=
  if i <? 0 then None else l !! Z.to_nat i.

(** [l[i] = x], for an index inside the array (the store only assigns at an
    index [findIndex] returned; see [findIndex_from_range]). *)
Definition set {A : Type} (l : list A) (i : Z) (x : A) : list A :=
  <[Z.to_nat i := x]> l.

(** [l.splice(start, deleteCount)]: the array that is left. *)
Definition splice {A : Type} (start : Z) (deleteCount : nat) (l : list A)
  : list A :=
  let len := Z.of_nat (length l) in
  let s := Z.to_nat (if start <? 0 then Z.max (len + start) 0
                     else Z.min start len) in
  take s l ++ drop (s + deleteCount) l.

End Array.

(** ** class AsyncJSONFile (the same in both source files) *)

Module AsyncJSONFile.

(** [readFile(filename, "utf-8")] of fs/promises. *)
Definition readFile {C : JSONCodec} : Promise text :=
  fun w =>
    match file w with
    | Absent => (inl (ErrnoException "ENOENT"), w)
    | Faulty c => (inl (ErrnoException c), w)
    | Content t => (inr t, w)
    end.

(** [Writer.write] of steno: the whole content is replaced, or the write
    fails and the file is left as it was. *)
Definition Writer_write {C : JSONCodec} (t : text) : Promise unit :=
  fun w =>
    match wfault w with
    | Some c => (inl (ErrnoException c), w)
    | None => (inr tt, mkWorld C (Content t) (wfault w) (trace w))
    end.

(** [this.parse], that is [JSON.parse]. *)
Definition JSON_parse {C : JSONCodec} (t : text) : exn + decoded :=
  match parse t with
  | inl message => inl (SyntaxError message)
  | inr v => inr v
  end.

Definition read {C : JSONCodec} : Promise decoded :=
  let! _ := emit EvRead in
  try_catch
    (let! t := readFile in lift (JSON_parse t))
    (fun e =>
       if decide (code e = Some "ENOENT") then resolve (Falsy FNull)
       else reject e).

Definition write {C : JSONCodec} (data : Document) : Promise unit :=
  let! _ := emit (EvWrite data) in
  Writer_write (stringify data).

End AsyncJSONFile.

(** ** class AsyncJSONFileBasedDB (src/db.ts) *)

Module AsyncJSONFileBasedDB.
Section Store.
Context {C : JSONCodec}.
(** [this.collection] *)
Variable collection : string.

Definition getCollectionData : Promise property :=
  let! entities := AsyncJSONFile.read in
  match entities with
  | Doc d => resolve (get_property d collection)
  | Falsy _ => resolve Nullish
  end.

Definition initializeDB : Promise unit :=
  AsyncJSONFile.write ∅.

Definition create (newEntity : Entity) : Promise Entity :=
  let! allEntities := AsyncJSONFile.read in
  let! collectionEntities := getCollectionData in
  let! newEntities :=
    match allEntities with
    | Doc d =>
        let! items := lift (appended collectionEntities newEntity) in
        resolve (<[collection := items]> d : Document)
    | Falsy _ => resolve ({[collection := [newEntity]]} : Document)
    end in
  let! _ := AsyncJSONFile.write newEntities in
  resolve newEntity.

Definition getAll : Promise property :=
  let! entities := getCollectionData in
  resolve (or_empty entities).

Definition getByID (id : string) : Promise (option Entity) :=
  let! entities := getCollectionData in
  match entities with
  | Records l => resolve (Array.find (has_id id) l)
  | Member _ => reject TypeError
  | Nullish => resolve None
  end.

Definition update (id : string) (updatedEntity : Entity)
  : Promise (option Entity) :=
  let! entities := getCollectionData in
  match entities with
  | Records l =>
      let entityIndex := Array.findIndex (has_id id) l in
      if entityIndex =? -1 then resolve None
      else
        let updated :=
          object_spread (default ∅ (Array.get l entityIndex)) updatedEntity in
        let l' := Array.set l entityIndex updated in
        let! allEntities := AsyncJSONFile.read in
        let updatedEntities : Document :=
          match allEntities with
          | Doc d => <[collection := l']> d
          | Falsy _ => {[collection := l']}
          end in
        let! _ := AsyncJSONFile.write updatedEntities in
        resolve (Some updated)
  | Member _ => reject TypeError
  | Nullish => resolve None
  end.

Definition delete (id : string) : Promise bool :=
  let! entities := getCollectionData in
  match entities with
  | Records l =>
      let entityIndex := Array.findIndex (has_id id) l in
      if entityIndex =? -1 then resolve false
      else
        let l' := Array.splice entityIndex 1 l in
        let! allEntities := AsyncJSONFile.read in
        let updatedEntities : Document :=
          match allEntities with
          | Doc d => <[collection := l']> d
          | Falsy _ => {[collection := l']}
          end in
        let! _ := AsyncJSONFile.write updatedEntities in
        resolve true
  | Member _ => reject TypeError
  | Nullish => resolve false
  end.

End Store.
End AsyncJSONFileBasedDB.

(** ** class SimpleDB (the sibling source file) *)

Module SimpleDB.
Section Store.
Context {C : JSONCodec}.
(** [this.collection] *)
Variable collection : string.

Definition getEntitiesState : Promise (decoded * property) :=
  let! allEntities := AsyncJSONFile.read in
  let collectionEntities :=
    match allEntities with
    | Doc d => get_property d collection
    | Falsy _ => Nullish
    end in
  resolve (allEntities, collectionEntities).

Definition writeEntitiesState (entities : Document) : Promise unit :=
  AsyncJSONFile.write entities.

Definition create (newEntity : Entity) : Promise Entity :=
  let! (allEntities, collectionEntities) := getEntitiesState in
  let! items := lift (appended collectionEntities newEntity) in
  let newEntities : Document :=
    <[collection := items]> (spread allEntities) in
  let! _ := writeEntitiesState newEntities in
  resolve newEntity.

Definition getAll : Promise property :=
  let! (_, entities) := getEntitiesState in
  resolve (or_empty entities).

Definition getByID (id : string) : Promise (option Entity) :=
  let! (_, entities) := getEntitiesState in
  match entities with
  | Records l => resolve (Array.find (has_id id) l)
  | Member _ => reject TypeError
  | Nullish => resolve None
  end.

Definition update (id : string) (updatedEntity : Entity)
  : Promise (option Entity) :=
  let! (allEntities, collectionEntities) := getEntitiesState in
  match collectionEntities with
  | Nullish => resolve None
  | Member _ => reject TypeError
  | Records l =>
      let entityIndex := Array.findIndex (has_id id) l in
      if entityIndex =? -1 then resolve None
      else
        let updated :=
          object_spread (default ∅ (Array.get l entityIndex)) updatedEntity in
        let l' := Array.set l entityIndex updated in
        let updatedEntities : Document :=
          <[collection := l']> (spread allEntities) in
        let! _ := writeEntitiesState updatedEntities in
        resolve (Some updated)
  end.

Definition delete (id : string) : Promise bool :=
  let! (allEntities, collectionEntities) := getEntitiesState in
  match collectionEntities with
  | Nullish => resolve false
  | Member _ => reject TypeError
  | Records l =>
      let entityIndex := Array.findIndex (has_id id) l in
      if entityIndex =? -1 then resolve false
      else
        let l' := Array.splice entityIndex 1 l in
        let updatedEntities : Document :=
          <[collection := l']> (spread allEntities) in
        let! _ := writeEntitiesState updatedEntities in
        resolve true
  end.

Definition getEntities : Promise decoded :=
  AsyncJSONFile.read.

Definition deleteEntities (entities : Document) : Promise bool :=
  let entities' : Document := base.delete collection entities in
  let! _ := AsyncJSONFile.write entities' in
  resolve true.

Definition deleteCollection : Promise bool :=
  let! entities := getEntities in
  match entities with
  | Doc d => deleteEntities d
  | Falsy _ => resolve false
  end.

End Store.
End SimpleDB.

(** ** What the statements below talk about *)

(** What [storage.read()] returns, or throws, in a world. *)
Definition stored {C : JSONCodec} (w : World) : exn + decoded :=
  result AsyncJSONFile.read w.

(** [v ? v[collection] : null] *)
Definition target (collection : string) (v : decoded) : property :=
  match v with
  | Doc d => get_property d collection
  | Falsy _ => Nullish
  end.

(** The array [create] appends to: the one stored under the collection, or
    an empty one when nothing is; none when the name of the collection
    resolves to a member of [Object.prototype]. *)
Definition listed (collection : string) (v : decoded)
  : option (list Entity) :=
  match target collection v with
  | Records l => Some l
  | Member _ => None
  | Nullish => Some []
  end.

(** The read succeeds, the collection is there and a record of it carries
    [id]: [update] and [delete] go on to mutate. *)
Definition found {C : JSONCodec} (collection id : string) (w : World)
  : bool :=
  match stored w with
  | inr v =>
      match target collection v with
      | Records l => negb (Array.findIndex (has_id id) l =? -1)
      | _ => false
      end
  | inl _ => false
  end.

(** The read returns a value: [AsyncJSONFileBasedDB.create] goes on to
    read again. *)
Definition readable {C : JSONCodec} (w : World) : bool :=
  match stored w with inr _ => true | inl _ => false end.

(** The read returns a value in which the name of the collection does not
    resolve to a member of [Object.prototype]: [create] goes on to
    mutate. *)
Definition appends {C : JSONCodec} (collection : string) (w : World)
  : bool :=
  match stored w with
  | inr v => match listed collection v with Some _ => true | None => false end
  | inl _ => false
  end.

(** The read returns a document: [deleteCollection] goes on to mutate. *)
Definition has_document {C : JSONCodec} (w : World) : bool :=
  match stored w with inr (Doc _) => true | _ => false end.

(** Outcome of [await this.storage.write(data); return a]. *)
Definition commit {C : JSONCodec} {A : Type} (data : Document) (a : A)
    (w : World) : (exn + A) * World :=
  match wfault w with
  | Some c => (inl (ErrnoException c), record (EvWrite data) w)
  | None =>
      (inr a,
       mkWorld C (Content (stringify data)) None (trace w ++ [EvWrite data]))
  end.

(** The ways a read can fail other than by the file not being there. *)
Inductive read_fails {C : JSONCodec} (w : World) : exn -> Prop :=
| io_failure c :
    file w = Faulty c -> c <> "ENOENT" -> read_fails w (ErrnoException c)
| decode_failure t message :
    file w = Content t -> parse t = inl message ->
    read_fails w (SyntaxError message).

(** The run throws [e] to its caller after a single read, without writing
    and without touching the file. *)
Definition propagates {C : JSONCodec} {A : Type} (m : Promise A) (w : World)
    (e : exn) : Prop :=
  result m w = inl e /\ accesses m w = [EvRead] /\
  file (after m w) = file w.

(** The same world, had the file not been there. *)
Definition without_file {C : JSONCodec} (w : World) : World :=
  mkWorld C Absent (wfault w) (trace w).

(** The run returns and accesses the storage just as it does when the file
    is not there. *)
Definition as_if_absent {C : JSONCodec} {A : Type} (m : Promise A)
    (w : World) : Prop :=
  result m w = result m (without_file w) /\
  accesses m w = accesses m (without_file w).

(** No record of [l] carries [id]. *)
Definition no_match (id : string) (l : list Entity) : Prop :=
  Forall (fun entity => has_id id entity = false) l.

(** ** A codec and some worlds to run the store on

    [tree_codec] takes the text to be the syntax tree: well-formed text is
    the value it denotes, anything else is [Malformed]. *)
Inductive tree_text : Type :=
| Malformed (raw : string)
| WellFormed (v : decoded).

Definition tree_codec : JSONCodec := {|
  text := tree_text;
  parse := fun t =>
    match t with
    | Malformed raw => inl raw
    | WellFormed v => inr v
    end;
  stringify := fun d => WellFormed (Doc d)
|}.

Definition alice : Entity :=
  {[ "id" := JStr "a"; "name" := JStr "Alice" ]}.

Definition bob : Entity :=
  {[ "id" := JStr "b"; "name" := JStr "Bob" ]}.

(** A second record that carries the id of [alice]. *)
Definition alias : Entity :=
  {[ "id" := JStr "a"; "name" := JStr "Alias" ]}.

(** [alice] after a patch that carries an [id]. *)
Definition zed : Entity :=
  {[ "id" := JStr "z"; "name" := JStr "Alice" ]}.

Definition post : Entity :=
  {[ "id" := JStr "p"; "title" := JStr "Hello" ]}.

Definition doc_users : Document :=
  {[ "users" := [alice; bob]; "posts" := [post] ]}.

Definition doc_dup : Document :=
  {[ "users" := [bob; alice; alias]; "posts" := [post] ]}.

Definition doc_posts : Document :=
  {[ "posts" := [post] ]}.

Definition world_of (st : @file_status tree_codec) : @World tree_codec :=
  mkWorld tree_codec st None [].

Definition w_absent : @World tree_codec := world_of (@Absent tree_codec).

Definition w_users : @World tree_codec :=
  world_of (@Content tree_codec (WellFormed (Doc doc_users))).

Definition w_dup : @World tree_codec :=
  world_of (@Content tree_codec (WellFormed (Doc doc_dup))).

Definition w_posts : @World tree_codec :=
  world_of (@Content tree_codec (WellFormed (Doc doc_posts))).

Definition w_zero : @World tree_codec :=
  world_of (@Content tree_codec (WellFormed (Falsy FZero))).

Definition w_denied : @World tree_codec := world_of (@Faulty tree_codec "EACCES").

Definition w_garbled : @World tree_codec :=
  world_of (@Content tree_codec (Malformed "{users:")).

(** ** Notions for the properties beyond the claims *)

(** The documents handed to [storage.write] in a trace, in order. *)
Definition written (evs : list event) : list Document :=
  flat_map (fun ev => match ev with
                      | EvWrite data => [data]
                      | EvRead => []
                      end) evs.

(** The run reads once and leaves the world as it found it, the trace
    entry of that read apart. *)
Definition read_only {C : JSONCodec} {A : Type} (m : Promise A) (w : World)
  : Prop :=
  accesses m w = [EvRead] /\ after m w = record EvRead w.

(** Two runs give the same result, leave the same file and hand the same
    documents to [storage.write]. *)
Definition same_outcome {C : JSONCodec} {A : Type} (m1 m2 : Promise A)
    (w : World) : Prop :=
  result m1 w = result m2 w /\
  file (after m1 w) = file (after m2 w) /\
  written (accesses m1 w) = written (accesses m2 w).

(** A rejection of the run is the error of its read, with nothing handed
    to [storage.write]; or the [TypeError] of a collection name that
    resolves to a member of [Object.prototype], with nothing handed to
    [storage.write] either; or the error of the one write it made. *)
Definition fails_cleanly {C : JSONCodec} {A : Type} (collection : string)
    (m : Promise A) (w : World) : Prop :=
  forall e : exn,
    result m w = inl e ->
    (stored w = inl e /\ written (accesses m w) = []) \/
    (e = TypeError /\
     (exists v : decoded,
        stored w = inr v /\ target collection v = Member collection) /\
     written (accesses m w) = []) \/
    (exists (c : string) (data : Document),
       wfault w = Some c /\ e = ErrnoException c /\
       written (accesses m w) = [data]).

(** [getAll] and [getByID] on the collection [name] answer in [w1] as they
    do in [w2]. *)
Definition reads_alike {C : JSONCodec} (name id : string) (w1 w2 : World)
  : Prop :=
  result (SimpleDB.getAll name) w1 = result (SimpleDB.getAll name) w2 /\
  result (SimpleDB.getByID name id) w1 =
    result (SimpleDB.getByID name id) w2.

(** A world whose path cannot be written. *)
Definition w_readonly : @World tree_codec :=
  mkWorld tree_codec (@Content tree_codec (WellFormed (Doc doc_users)))
    (Some "EROFS") [].

Definition carol : Entity :=
  {[ "id" := JStr "c"; "name" := JStr "Carol" ]}.

(** A record without [id], and one whose [id] is a number. *)
Definition anonymous : Entity := {[ "name" := JStr "Nobody" ]}.

Definition numbered : Entity := {[ "id" := JNum 7 ]}.

(** * Properties *)

(** ** The codec of the examples *)

Lemma tree_codec_lossless : Lossless tree_codec.
Proof. intros d. reflexivity. Qed.

(** ** Arrays *)

Lemma findIndex_from_none {A : Type} (p : A -> bool) (l : list A) (k : Z) :
  0 <= k ->
  Array.findIndex_from k p l = -1 <-> Forall (fun x => p x = false) l.
Proof.
  revert k. induction l as [|x l IH]; intros k Hk; simpl.
  - split; [constructor | reflexivity].
  - destruct (p x) eqn:Hx.
    + split; [lia | intros H; inversion H; congruence].
    + rewrite IH by lia. split.
      * intros H. constructor; assumption.
      * intros H. inversion H; assumption.
Qed.

Lemma findIndex_from_first {A : Type} (p : A -> bool) (l1 l2 : list A)
    (x : A) (k : Z) :
  Forall (fun y => p y = false) l1 -> p x = true ->
  Array.findIndex_from k p (l1 ++ x :: l2) = k + Z.of_nat (length l1).
Proof.
  revert k. induction l1 as [|y l1 IH]; intros k Hl1 Hx; simpl.
  - rewrite Hx. lia.
  - inversion Hl1 as [|? ? Hy Hl1']; subst. rewrite Hy.
    rewrite IH by assumption. lia.
Qed.

Lemma findIndex_from_range {A : Type} (p : A -> bool) (l : list A) (k : Z) :
  0 <= k ->
  Array.findIndex_from k p l = -1 \/
  k <= Array.findIndex_from k p l < k + Z.of_nat (length l).
Proof.
  revert k. induction l as [|x l IH]; intros k Hk; simpl.
  - left. reflexivity.
  - destruct (p x).
    + right. lia.
    + destruct (IH (k + 1) ltac:(lia)) as [H | H]; [left | right]; lia.
Qed.

Lemma findIndex_first (id : string) (l1 l2 : list Entity) (r : Entity) :
  no_match id l1 -> has_id id r = true ->
  Array.findIndex (has_id id) (l1 ++ r :: l2) = Z.of_nat (length l1).
Proof.
  intros H1 Hr. unfold Array.findIndex.
  rewrite findIndex_from_first by assumption. lia.
Qed.

Lemma findIndex_none (id : string) (l : list Entity) :
  Array.findIndex (has_id id) l = -1 <-> no_match id l.
Proof. apply findIndex_from_none. lia. Qed.

Lemma find_none (id : string) (l : list Entity) :
  no_match id l -> Array.find (has_id id) l = None.
Proof.
  induction 1 as [|x l Hx _ IH]; simpl; [reflexivity |].
  rewrite Hx. exact IH.
Qed.

Lemma find_first (id : string) (l1 l2 : list Entity) (r : Entity) :
  no_match id l1 -> has_id id r = true ->
  Array.find (has_id id) (l1 ++ r :: l2) = Some r.
Proof.
  induction 1 as [|x l Hx _ IH]; intros Hr; simpl.
  - rewrite Hr. reflexivity.
  - rewrite Hx. apply IH, Hr.
Qed.

Lemma find_skip (id : string) (l1 l2 : list Entity) :
  no_match id l1 ->
  Array.find (has_id id) (l1 ++ l2) = Array.find (has_id id) l2.
Proof.
  induction 1 as [|x l Hx _ IH]; simpl; [reflexivity |].
  rewrite Hx. exact IH.
Qed.

Lemma get_middle {A : Type} (l1 l2 : list A) (x : A) :
  Array.get (l1 ++ x :: l2) (Z.of_nat (length l1)) = Some x.
Proof.
  unfold Array.get.
  destruct (Z.ltb_spec (Z.of_nat (length l1)) 0) as [H | _]; [lia |].
  rewrite Nat2Z.id. apply list_lookup_middle. reflexivity.
Qed.

Lemma set_middle {A : Type} (l1 l2 : list A) (x y : A) :
  Array.set (l1 ++ x :: l2) (Z.of_nat (length l1)) y = l1 ++ y :: l2.
Proof.
  unfold Array.set. rewrite Nat2Z.id.
  rewrite insert_app_r_alt by lia.
  replace (length l1 - length l1)%nat with 0%nat by lia. reflexivity.
Qed.

Lemma splice_middle {A : Type} (l1 l2 : list A) (x : A) :
  Array.splice (Z.of_nat (length l1)) 1 (l1 ++ x :: l2) = l1 ++ l2.
Proof.
  unfold Array.splice.
  destruct (Z.ltb_spec (Z.of_nat (length l1)) 0) as [H | _]; [lia |].
  rewrite length_app. simpl length.
  rewrite Z.min_l by lia. rewrite Nat2Z.id.
  rewrite take_app_length.
  rewrite drop_app_ge by lia.
  replace (length l1 + 1 - length l1)%nat with 1%nat by lia.
  reflexivity.
Qed.

(** The first record carrying [id], when there is one, splits the array. *)
Lemma first_match_split (id : string) (l : list Entity) :
  Array.findIndex (has_id id) l <> -1 ->
  exists l1 r l2,
    l = l1 ++ r :: l2 /\ no_match id l1 /\ has_id id r = true.
Proof.
  induction l as [|x l IH]; intros H.
  - exfalso. apply H. reflexivity.
  - destruct (has_id id x) eqn:Hx.
    + exists [], x, l. repeat split; [constructor | exact Hx].
    + destruct IH as (l1 & r & l2 & -> & H1 & Hr).
      * intros Hn. apply H. apply findIndex_none.
        constructor; [exact Hx | apply findIndex_none, Hn].
      * exists (x :: l1), r, l2. repeat split; [|exact Hr].
        constructor; assumption.
Qed.

(** ** The storage layer *)

Section Storage.
Context {C : JSONCodec}.

Lemma read_run (w : World) :
  AsyncJSONFile.read w = (stored w, record EvRead w).
Proof.
  unfold stored, result, AsyncJSONFile.read, await, emit, try_catch,
    AsyncJSONFile.readFile, lift, resolve, reject.
  simpl. destruct (file w) as [|c|t]; simpl.
  - reflexivity.
  - destruct (decide (Some c = Some "ENOENT")); reflexivity.
  - destruct (AsyncJSONFile.JSON_parse t) as [e|v] eqn:Hp; [|reflexivity].
    destruct (decide (code e = Some "ENOENT")); reflexivity.
Qed.

Lemma stored_absent (w : World) :
  file w = Absent -> stored w = inr (Falsy FNull).
Proof.
  intros H. unfold stored, result, AsyncJSONFile.read, await, emit,
    try_catch, AsyncJSONFile.readFile. simpl. rewrite H. reflexivity.
Qed.

Lemma stored_content (w : World) (t : text) :
  file w = Content t -> stored w = AsyncJSONFile.JSON_parse t.
Proof.
  intros H. unfold stored, result, AsyncJSONFile.read, await, emit,
    try_catch, AsyncJSONFile.readFile, lift. simpl. rewrite H.
  unfold AsyncJSONFile.JSON_parse. destruct (parse t); reflexivity.
Qed.

Lemma stored_decoded (w : World) (t : text) (v : decoded) :
  file w = Content t -> parse t = inr v -> stored w = inr v.
Proof.
  intros H Hp. rewrite (stored_content w t H). unfold AsyncJSONFile.JSON_parse.
  rewrite Hp. reflexivity.
Qed.

Lemma stored_fails (w : World) (e : exn) :
  read_fails w e -> stored w = inl e.
Proof.
  intros [c Hf Hc | t message Hf Hp].
  - unfold stored, result, AsyncJSONFile.read, await, emit, try_catch,
      AsyncJSONFile.readFile. simpl. rewrite Hf. simpl.
    destruct (decide (Some c = Some "ENOENT")) as [Heq | _]; [|reflexivity].
    congruence.
  - rewrite (stored_content w t Hf). unfold AsyncJSONFile.JSON_parse. rewrite Hp.
    reflexivity.
Qed.

(** What is read depends on the file only. *)
Lemma stored_file (w1 w2 : World) :
  file w1 = file w2 -> stored w1 = stored w2.
Proof.
  intros H. unfold stored, result, AsyncJSONFile.read, await, emit,
    try_catch, AsyncJSONFile.readFile, lift, resolve, reject.
  simpl. rewrite H. destruct (file w2) as [|c|t]; simpl.
  - reflexivity.
  - destruct (decide (Some c = Some "ENOENT")); reflexivity.
  - destruct (AsyncJSONFile.JSON_parse t) as [e|v]; [|reflexivity].
    destruct (decide (code e = Some "ENOENT")); reflexivity.
Qed.

Lemma stored_record (ev : event) (w : World) :
  stored (record ev w) = stored w.
Proof. apply stored_file. reflexivity. Qed.

Lemma write_run (data : Document) (w : World) :
  AsyncJSONFile.write data w =
  match wfault w with
  | Some c => (inl (ErrnoException c), record (EvWrite data) w)
  | None =>
      (inr tt,
       mkWorld C (Content (stringify data)) None
         (trace w ++ [EvWrite data]))
  end.
Proof.
  unfold AsyncJSONFile.write, await, emit, AsyncJSONFile.Writer_write.
  simpl. destruct (wfault w) eqn:Hw; reflexivity.
Qed.

Lemma accesses_intro {A : Type} (m : Promise A) (w : World)
    (evs : list event) :
  trace (after m w) = trace w ++ evs -> accesses m w = evs.
Proof. intros H. unfold accesses. rewrite H. apply drop_app_length. Qed.

End Storage.

(** ** Run equations of the two stores *)

Section Runs.
Context {C : JSONCodec}.
Variable collection : string.

Lemma write_then {A : Type} (data : Document) (a : A) (w : World) :
  (let! _ := AsyncJSONFile.write data in resolve a) w = commit data a w.
Proof.
  unfold await, commit. rewrite write_run.
  destruct (wfault w); reflexivity.
Qed.

Lemma commit_trace {A : Type} (data : Document) (a : A) (w : World) :
  trace (snd (commit data a w)) = trace w ++ [EvWrite data].
Proof. unfold commit. destruct (wfault w); reflexivity. Qed.

Lemma commit_ok {A : Type} (data : Document) (a : A) (w : World) :
  wfault w = None ->
  fst (commit data a w) = inr a /\
  file (snd (commit data a w)) = Content (stringify data).
Proof. intros H. unfold commit. rewrite H. split; reflexivity. Qed.

Lemma getEntitiesState_run (w : World) :
  SimpleDB.getEntitiesState collection w =
  (match stored w with
   | inl e => inl e
   | inr v => inr (v, target collection v)
   end, record EvRead w).
Proof.
  unfold SimpleDB.getEntitiesState, await. rewrite read_run.
  destruct (stored w) as [e|[f|d]]; reflexivity.
Qed.

Lemma getCollectionData_run (w : World) :
  AsyncJSONFileBasedDB.getCollectionData collection w =
  (match stored w with
   | inl e => inl e
   | inr v => inr (target collection v)
   end, record EvRead w).
Proof.
  unfold AsyncJSONFileBasedDB.getCollectionData, await. rewrite read_run.
  destruct (stored w) as [e|[f|d]]; reflexivity.
Qed.

Lemma SimpleDB_create_run (newEntity : Entity) (w : World) :
  SimpleDB.create collection newEntity w =
  match stored w with
  | inl e => (inl e, record EvRead w)
  | inr v =>
      match appended (target collection v) newEntity with
      | inl e => (inl e, record EvRead w)
      | inr items =>
          commit (<[collection := items]> (spread v)) newEntity
            (record EvRead w)
      end
  end.
Proof.
  unfold SimpleDB.create, SimpleDB.writeEntitiesState.
  unfold await at 1. rewrite getEntitiesState_run.
  destruct (stored w) as [e|v]; [reflexivity |].
  unfold await at 1, lift.
  destruct (appended (target collection v) newEntity) as [e|items];
    [reflexivity |].
  apply write_then.
Qed.

Lemma SimpleDB_getAll_run (w : World) :
  SimpleDB.getAll collection w =
  (match stored w with
   | inl e => inl e
   | inr v => inr (or_empty (target collection v))
   end, record EvRead w).
Proof.
  unfold SimpleDB.getAll, await. rewrite getEntitiesState_run.
  destruct (stored w) as [e|v]; reflexivity.
Qed.

Lemma SimpleDB_getByID_run (id : string) (w : World) :
  SimpleDB.getByID collection id w =
  (match stored w with
   | inl e => inl e
   | inr v =>
       match target collection v with
       | Records l => inr (Array.find (has_id id) l)
       | Member _ => inl TypeError
       | Nullish => inr None
       end
   end, record EvRead w).
Proof.
  unfold SimpleDB.getByID, await. rewrite getEntitiesState_run.
  destruct (stored w) as [e|v]; [reflexivity |].
  destruct (target collection v); reflexivity.
Qed.

Lemma SimpleDB_update_run (id : string) (patch : Entity) (w : World) :
  SimpleDB.update collection id patch w =
  match stored w with
  | inl e => (inl e, record EvRead w)
  | inr v =>
      match target collection v with
      | Nullish => (inr None, record EvRead w)
      | Member _ => (inl TypeError, record EvRead w)
      | Records l =>
          let i := Array.findIndex (has_id id) l in
          if i =? -1 then (inr None, record EvRead w)
          else
            let updated :=
              object_spread (default ∅ (Array.get l i)) patch in
            commit (<[collection := Array.set l i updated]> (spread v))
              (Some updated) (record EvRead w)
      end
  end.
Proof.
  unfold SimpleDB.update, SimpleDB.writeEntitiesState.
  unfold await at 1. rewrite getEntitiesState_run.
  destruct (stored w) as [e|v]; [reflexivity |].
  destruct (target collection v) as [l|name|]; [|reflexivity ..].
  cbv zeta. destruct (Array.findIndex (has_id id) l =? -1); [reflexivity |].
  apply write_then.
Qed.

Lemma SimpleDB_delete_run (id : string) (w : World) :
  SimpleDB.delete collection id w =
  match stored w with
  | inl e => (inl e, record EvRead w)
  | inr v =>
      match target collection v with
      | Nullish => (inr false, record EvRead w)
      | Member _ => (inl TypeError, record EvRead w)
      | Records l =>
          let i := Array.findIndex (has_id id) l in
          if i =? -1 then (inr false, record EvRead w)
          else
            commit (<[collection := Array.splice i 1 l]> (spread v))
              true (record EvRead w)
      end
  end.
Proof.
  unfold SimpleDB.delete, SimpleDB.writeEntitiesState.
  unfold await at 1. rewrite getEntitiesState_run.
  destruct (stored w) as [e|v]; [reflexivity |].
  destruct (target collection v) as [l|name|]; [|reflexivity ..].
  cbv zeta. destruct (Array.findIndex (has_id id) l =? -1); [reflexivity |].
  apply write_then.
Qed.

Lemma SimpleDB_deleteCollection_run (w : World) :
  SimpleDB.deleteCollection collection w =
  match stored w with
  | inl e => (inl e, record EvRead w)
  | inr (Falsy _) => (inr false, record EvRead w)
  | inr (Doc d) => commit (base.delete collection d) true (record EvRead w)
  end.
Proof.
  unfold SimpleDB.deleteCollection, SimpleDB.getEntities,
    SimpleDB.deleteEntities.
  unfold await at 1. rewrite read_run.
  destruct (stored w) as [e|[f|d]]; [reflexivity | reflexivity |].
  apply write_then.
Qed.

(** A falsy value has no property to append to. *)
Lemma appended_falsy (f : falsy) (newEntity : Entity) :
  appended (target collection (Falsy f)) newEntity = inr [newEntity].
Proof. reflexivity. Qed.

Lemma AsyncDB_create_run (newEntity : Entity) (w : World) :
  AsyncJSONFileBasedDB.create collection newEntity w =
  match stored w with
  | inl e => (inl e, record EvRead w)
  | inr v =>
      match appended (target collection v) newEntity with
      | inl e => (inl e, record EvRead (record EvRead w))
      | inr items =>
          commit (<[collection := items]> (spread v)) newEntity
            (record EvRead (record EvRead w))
      end
  end.
Proof.
  unfold AsyncJSONFileBasedDB.create.
  unfold await at 1. rewrite read_run.
  destruct (stored w) as [e|v] eqn:Hs; [reflexivity |].
  unfold await at 1. rewrite getCollectionData_run, stored_record, Hs.
  destruct v as [f|d].
  - rewrite appended_falsy. unfold await at 1. unfold resolve at 1.
    cbv beta iota. rewrite write_then. simpl. rewrite insert_empty.
    reflexivity.
  - simpl target. unfold await at 1 2, lift.
    destruct (appended (get_property d collection) newEntity) as [e|items];
      [reflexivity |].
    unfold resolve at 1. cbv beta iota. apply write_then.
Qed.

Lemma AsyncDB_getAll_run (w : World) :
  AsyncJSONFileBasedDB.getAll collection w =
  (match stored w with
   | inl e => inl e
   | inr v => inr (or_empty (target collection v))
   end, record EvRead w).
Proof.
  unfold AsyncJSONFileBasedDB.getAll, await.
  rewrite getCollectionData_run.
  destruct (stored w) as [e|v]; reflexivity.
Qed.

Lemma AsyncDB_getByID_run (id : string) (w : World) :
  AsyncJSONFileBasedDB.getByID collection id w =
  (match stored w with
   | inl e => inl e
   | inr v =>
       match target collection v with
       | Records l => inr (Array.find (has_id id) l)
       | Member _ => inl TypeError
       | Nullish => inr None
       end
   end, record EvRead w).
Proof.
  unfold AsyncJSONFileBasedDB.getByID, await.
  rewrite getCollectionData_run.
  destruct (stored w) as [e|v]; [reflexivity |].
  destruct (target collection v); reflexivity.
Qed.

(** An array can only be found in a document, under an own key. *)
Lemma target_some (v : decoded) (l : list Entity) :
  target collection v = Records l ->
  exists d, v = Doc d /\ d !! collection = Some l.
Proof.
  destruct v as [f|d]; simpl; intros H; [discriminate |].
  exists d. split; [reflexivity |].
  unfold get_property in H. destruct (d !! collection) as [l'|].
  - congruence.
  - destruct (inherited collection); discriminate.
Qed.

Lemma target_own (d : Document) (l : list Entity) :
  d !! collection = Some l -> target collection (Doc d) = Records l.
Proof. intros H. simpl. unfold get_property. rewrite H. reflexivity. Qed.

Lemma AsyncDB_update_run (id : string) (patch : Entity) (w : World) :
  AsyncJSONFileBasedDB.update collection id patch w =
  match stored w with
  | inl e => (inl e, record EvRead w)
  | inr v =>
      match target collection v with
      | Nullish => (inr None, record EvRead w)
      | Member _ => (inl TypeError, record EvRead w)
      | Records l =>
          let i := Array.findIndex (has_id id) l in
          if i =? -1 then (inr None, record EvRead w)
          else
            let updated :=
              object_spread (default ∅ (Array.get l i)) patch in
            commit (<[collection := Array.set l i updated]> (spread v))
              (Some updated) (record EvRead (record EvRead w))
      end
  end.
Proof.
  unfold AsyncJSONFileBasedDB.update.
  unfold await at 1. rewrite getCollectionData_run.
  destruct (stored w) as [e|v] eqn:Hs; [reflexivity |].
  destruct (target collection v) as [l|name|] eqn:Ht; [|reflexivity ..].
  cbv zeta. destruct (Array.findIndex (has_id id) l =? -1); [reflexivity |].
  unfold await at 1. rewrite read_run, stored_record, Hs.
  rewrite write_then.
  destruct (target_some v l Ht) as (d & -> & _). reflexivity.
Qed.

Lemma AsyncDB_delete_run (id : string) (w : World) :
  AsyncJSONFileBasedDB.delete collection id w =
  match stored w with
  | inl e => (inl e, record EvRead w)
  | inr v =>
      match target collection v with
      | Nullish => (inr false, record EvRead w)
      | Member _ => (inl TypeError, record EvRead w)
      | Records l =>
          let i := Array.findIndex (has_id id) l in
          if i =? -1 then (inr false, record EvRead w)
          else
            commit (<[collection := Array.splice i 1 l]> (spread v))
              true (record EvRead (record EvRead w))
      end
  end.
Proof.
  unfold AsyncJSONFileBasedDB.delete.
  unfold await at 1. rewrite getCollectionData_run.
  destruct (stored w) as [e|v] eqn:Hs; [reflexivity |].
  destruct (target collection v) as [l|name|] eqn:Ht; [|reflexivity ..].
  cbv zeta. destruct (Array.findIndex (has_id id) l =? -1); [reflexivity |].
  unfold await at 1. rewrite read_run, stored_record, Hs.
  rewrite write_then.
  destruct (target_some v l Ht) as (d & -> & _). reflexivity.
Qed.

End Runs.

(** ** Storage accesses of each operation *)

Section Accesses.
Context {C : JSONCodec}.
Variable collection : string.

Lemma fresh_read (w : World) :
  drop (length (trace w)) (trace (record EvRead w)) = [EvRead].
Proof. simpl. apply drop_app_length. Qed.

Lemma fresh_commit {A : Type} (data : Document) (a : A) (w : World) :
  drop (length (trace w)) (trace (snd (commit data a (record EvRead w)))) =
  [EvRead; EvWrite data].
Proof.
  rewrite commit_trace. simpl. rewrite <- app_assoc. apply drop_app_length.
Qed.

Lemma fresh_commit2 {A : Type} (data : Document) (a : A) (w : World) :
  drop (length (trace w))
    (trace (snd (commit data a (record EvRead (record EvRead w))))) =
  [EvRead; EvRead; EvWrite data].
Proof.
  rewrite commit_trace. simpl. rewrite <- !app_assoc. apply drop_app_length.
Qed.

(** [update] and [delete] stop after the read unless the read returned a
    document, the collection is in it and the id is found; [finish] then
    accounts for the accesses of the branch that writes. *)
Ltac by_search_outcome finish :=
  match goal with
  | |- context [Array.findIndex (has_id ?id) _] =>
      destruct (stored _) as [?|v]; [apply fresh_read |];
      destruct (target _ v) as [l|?|] eqn:Ht; [|apply fresh_read ..];
      destruct (target_some _ v l Ht) as (d & -> & Hd);
      cbv zeta;
      destruct (Array.findIndex (has_id id) l =? -1); simpl;
      [apply fresh_read | rewrite Hd; simpl; finish]
  end.

Lemma fresh_read2 (w : World) :
  drop (length (trace w)) (trace (record EvRead (record EvRead w))) =
  [EvRead; EvRead].
Proof. simpl. rewrite <- app_assoc. apply drop_app_length. Qed.

Lemma SimpleDB_create_accesses (newEntity : Entity) (w : World) :
  accesses (SimpleDB.create collection newEntity) w =
  match stored w with
  | inl _ => [EvRead]
  | inr v =>
      match appended (target collection v) newEntity with
      | inl _ => [EvRead]
      | inr items =>
          [EvRead; EvWrite (<[collection := items]> (spread v))]
      end
  end.
Proof.
  unfold accesses, after. rewrite SimpleDB_create_run.
  destruct (stored w) as [e|v]; [apply fresh_read |].
  destruct (appended (target collection v) newEntity);
    [apply fresh_read | apply fresh_commit].
Qed.

Lemma AsyncDB_create_accesses (newEntity : Entity) (w : World) :
  accesses (AsyncJSONFileBasedDB.create collection newEntity) w =
  match stored w with
  | inl _ => [EvRead]
  | inr v =>
      match appended (target collection v) newEntity with
      | inl _ => [EvRead; EvRead]
      | inr items =>
          [EvRead; EvRead; EvWrite (<[collection := items]> (spread v))]
      end
  end.
Proof.
  unfold accesses, after. rewrite AsyncDB_create_run.
  destruct (stored w) as [e|v]; [apply fresh_read |].
  destruct (appended (target collection v) newEntity);
    [apply fresh_read2 | apply fresh_commit2].
Qed.

Lemma SimpleDB_update_accesses (id : string) (patch : Entity) (w : World) :
  accesses (SimpleDB.update collection id patch) w =
  if found collection id w then
    match stored w with
    | inr (Doc d) =>
        let l := default [] (d !! collection) in
        let i := Array.findIndex (has_id id) l in
        let updated := object_spread (default ∅ (Array.get l i)) patch in
        [EvRead; EvWrite (<[collection := Array.set l i updated]> d)]
    | _ => []
    end
  else [EvRead].
Proof.
  unfold accesses, after, found. rewrite SimpleDB_update_run.
  by_search_outcome ltac:(apply fresh_commit).
Qed.

Lemma AsyncDB_update_accesses (id : string) (patch : Entity) (w : World) :
  accesses (AsyncJSONFileBasedDB.update collection id patch) w =
  if found collection id w then
    match stored w with
    | inr (Doc d) =>
        let l := default [] (d !! collection) in
        let i := Array.findIndex (has_id id) l in
        let updated := object_spread (default ∅ (Array.get l i)) patch in
        [EvRead; EvRead; EvWrite (<[collection := Array.set l i updated]> d)]
    | _ => []
    end
  else [EvRead].
Proof.
  unfold accesses, after, found. rewrite AsyncDB_update_run.
  by_search_outcome ltac:(apply fresh_commit2).
Qed.

Lemma SimpleDB_delete_accesses (id : string) (w : World) :
  accesses (SimpleDB.delete collection id) w =
  if found collection id w then
    match stored w with
    | inr (Doc d) =>
        let l := default [] (d !! collection) in
        let i := Array.findIndex (has_id id) l in
        [EvRead; EvWrite (<[collection := Array.splice i 1 l]> d)]
    | _ => []
    end
  else [EvRead].
Proof.
  unfold accesses, after, found. rewrite SimpleDB_delete_run.
  by_search_outcome ltac:(apply fresh_commit).
Qed.

Lemma AsyncDB_delete_accesses (id : string) (w : World) :
  accesses (AsyncJSONFileBasedDB.delete collection id) w =
  if found collection id w then
    match stored w with
    | inr (Doc d) =>
        let l := default [] (d !! collection) in
        let i := Array.findIndex (has_id id) l in
        [EvRead; EvRead; EvWrite (<[collection := Array.splice i 1 l]> d)]
    | _ => []
    end
  else [EvRead].
Proof.
  unfold accesses, after, found. rewrite AsyncDB_delete_run.
  by_search_outcome ltac:(apply fresh_commit2).
Qed.

Lemma SimpleDB_deleteCollection_accesses (w : World) :
  accesses (SimpleDB.deleteCollection collection) w =
  match stored w with
  | inr (Doc d) => [EvRead; EvWrite (base.delete collection d)]
  | _ => [EvRead]
  end.
Proof.
  unfold accesses, after. rewrite SimpleDB_deleteCollection_run.
  destruct (stored w) as [e|[f|d]];
    [apply fresh_read | apply fresh_read | apply fresh_commit].
Qed.

End Accesses.

(** ** The claims *)

(** C1 (as amended). [SimpleDB]: each of [create], [update], [delete] and
    [deleteCollection] performs exactly one read; it performs exactly one
    write when it goes on to mutate ([create]: the read returned and the
    name of the collection does not resolve to a member of
    [Object.prototype]; [update], [delete]: a record with the id was found
    in the target collection; [deleteCollection]: the read returned a
    document) and no write otherwise. [AsyncJSONFileBasedDB]: the writes
    are the same, but [create] reads a second time whenever its first read
    returned, and [update] and [delete] whenever they go on to mutate. *)
Theorem C1_storage_accesses {C : JSONCodec} (collection id : string)
    (newEntity patch : Entity) (w : World) :
  (reads_writes (SimpleDB.create collection newEntity) w =
     (1, Nat.b2n (appends collection w)) /\
   reads_writes (SimpleDB.update collection id patch) w =
     (1, Nat.b2n (found collection id w)) /\
   reads_writes (SimpleDB.delete collection id) w =
     (1, Nat.b2n (found collection id w)) /\
   reads_writes (SimpleDB.deleteCollection collection) w =
     (1, Nat.b2n (has_document w)))%nat /\
  (reads_writes (AsyncJSONFileBasedDB.create collection newEntity) w =
     (1 + Nat.b2n (readable w), Nat.b2n (appends collection w)) /\
   reads_writes (AsyncJSONFileBasedDB.update collection id patch) w =
     (1 + Nat.b2n (found collection id w), Nat.b2n (found collection id w)) /\
   reads_writes (AsyncJSONFileBasedDB.delete collection id) w =
     (1 + Nat.b2n (found collection id w),
      Nat.b2n (found collection id w)))%nat.
Proof.
  unfold reads_writes.
  rewrite SimpleDB_create_accesses, SimpleDB_update_accesses,
    SimpleDB_delete_accesses, SimpleDB_deleteCollection_accesses,
    AsyncDB_create_accesses, AsyncDB_update_accesses,
    AsyncDB_delete_accesses.
  unfold readable, appends, listed, has_document, found.
  destruct (stored w) as [e|[f|d]]; simpl; [repeat split .. |].
  unfold get_property.
  destruct (d !! collection) as [l|]; simpl.
  - destruct (Array.findIndex (has_id id) l =? -1); repeat split.
  - destruct (inherited collection); repeat split.
Qed.

(** C1, as stated, fails on [AsyncJSONFileBasedDB]: [create] on a store
    whose file is absent reads the storage twice. *)
Lemma C1_counterexample :
  reads (accesses (AsyncJSONFileBasedDB.create "users" bob) w_absent) = 2%nat
  /\ reads (accesses (AsyncJSONFileBasedDB.create "users" bob) w_absent)
     <> 1%nat.
Proof. split; [reflexivity | discriminate]. Qed.

(** A collection named after a member of [Object.prototype], in a document
    that has no such key: [create] throws after its reads and writes
    nothing, [getByID] throws, and [getAll] returns the member. *)
Lemma inherited_names_run :
  result (SimpleDB.create "constructor" carol) w_posts = inl TypeError /\
  reads_writes (SimpleDB.create "constructor" carol) w_posts = (1, 0)%nat /\
  result (AsyncJSONFileBasedDB.create "constructor" carol) w_posts =
    inl TypeError /\
  reads_writes (AsyncJSONFileBasedDB.create "constructor" carol) w_posts =
    (2, 0)%nat /\
  result (SimpleDB.getByID "toString" "a") w_posts = inl TypeError /\
  result (SimpleDB.getAll "__proto__") w_posts = inr (Member "__proto__").
Proof. repeat split. Qed.

(** ** Update and delete at the first match *)

Section FirstMatch.
Context {C : JSONCodec}.
Variables (collection id : string) (w : World) (d : Document).
Variables (l1 l2 : list Entity) (r : Entity).
Hypothesis Hstored : stored w = inr (Doc d).
Hypothesis Hcoll : d !! collection = Some (l1 ++ r :: l2).
Hypothesis Hbefore : no_match id l1.
Hypothesis Hid : has_id id r = true.

Lemma first_match_index :
  (Array.findIndex (has_id id) (l1 ++ r :: l2) =? -1) = false.
Proof. rewrite findIndex_first by assumption. apply Z.eqb_neq. lia. Qed.

Lemma SimpleDB_update_first (patch : Entity) :
  SimpleDB.update collection id patch w =
  commit (<[collection := l1 ++ object_spread r patch :: l2]> d)
    (Some (object_spread r patch)) (record EvRead w).
Proof.
  rewrite SimpleDB_update_run, Hstored, (target_own collection d _ Hcoll).
  cbv zeta. rewrite first_match_index.
  rewrite findIndex_first by assumption.
  rewrite get_middle, set_middle. reflexivity.
Qed.

Lemma AsyncDB_update_first (patch : Entity) :
  AsyncJSONFileBasedDB.update collection id patch w =
  commit (<[collection := l1 ++ object_spread r patch :: l2]> d)
    (Some (object_spread r patch)) (record EvRead (record EvRead w)).
Proof.
  rewrite AsyncDB_update_run, Hstored, (target_own collection d _ Hcoll).
  cbv zeta. rewrite first_match_index.
  rewrite findIndex_first by assumption.
  rewrite get_middle, set_middle. reflexivity.
Qed.

Lemma SimpleDB_delete_first :
  SimpleDB.delete collection id w =
  commit (<[collection := l1 ++ l2]> d) true (record EvRead w).
Proof.
  rewrite SimpleDB_delete_run, Hstored, (target_own collection d _ Hcoll).
  cbv zeta. rewrite first_match_index.
  rewrite findIndex_first by assumption.
  rewrite splice_middle. reflexivity.
Qed.

Lemma AsyncDB_delete_first :
  AsyncJSONFileBasedDB.delete collection id w =
  commit (<[collection := l1 ++ l2]> d) true
    (record EvRead (record EvRead w)).
Proof.
  rewrite AsyncDB_delete_run, Hstored, (target_own collection d _ Hcoll).
  cbv zeta. rewrite first_match_index.
  rewrite findIndex_first by assumption.
  rewrite splice_middle. reflexivity.
Qed.

End FirstMatch.

(** The [id] of a merged record comes from the patch when the patch has
    one, from the record otherwise. *)
Lemma object_spread_id (r patch : Entity) :
  object_spread r patch !! "id" =
  match patch !! "id" with
  | Some v => Some v
  | None => r !! "id"
  end.
Proof.
  unfold object_spread. destruct (patch !! "id") as [v|] eqn:Hp.
  - apply lookup_union_Some_l, Hp.
  - apply lookup_union_r, Hp.
Qed.

(** C2 (as amended). When the patch has no [id] field, as its type
    [Partial<Omit<T, "id">>] requires, the record that [update] returns and
    writes back in place of the first record carrying the id has the [id]
    of the record it replaces, in both stores. *)
Theorem C2_update_keeps_id {C : JSONCodec} (collection id : string)
    (patch : Entity) (w : World) (d : Document) (l1 l2 : list Entity)
    (r : Entity) :
  stored w = inr (Doc d) ->
  d !! collection = Some (l1 ++ r :: l2) ->
  no_match id l1 -> has_id id r = true ->
  patch !! "id" = None ->
  wfault w = None ->
  exists updated : Entity,
    updated !! "id" = r !! "id" /\
    (result (SimpleDB.update collection id patch) w = inr (Some updated) /\
     accesses (SimpleDB.update collection id patch) w =
       [EvRead; EvWrite (<[collection := l1 ++ updated :: l2]> d)] /\
     file (after (SimpleDB.update collection id patch) w) =
       Content (stringify (<[collection := l1 ++ updated :: l2]> d))) /\
    (result (AsyncJSONFileBasedDB.update collection id patch) w =
       inr (Some updated) /\
     accesses (AsyncJSONFileBasedDB.update collection id patch) w =
       [EvRead; EvRead; EvWrite (<[collection := l1 ++ updated :: l2]> d)] /\
     file (after (AsyncJSONFileBasedDB.update collection id patch) w) =
       Content (stringify (<[collection := l1 ++ updated :: l2]> d))).
Proof.
  intros Hs Hc H1 Hr Hp Hw. exists (object_spread r patch).
  split; [rewrite object_spread_id, Hp; reflexivity |].
  unfold result, accesses, after.
  rewrite (SimpleDB_update_first collection id w d l1 l2 r Hs Hc H1 Hr).
  rewrite (AsyncDB_update_first collection id w d l1 l2 r Hs Hc H1 Hr).
  rewrite fresh_commit, fresh_commit2.
  repeat split; apply commit_ok; exact Hw.
Qed.

Lemma C2_update_keeps_id_witness :
  exists updated : Entity,
    updated !! "id" = alice !! "id" /\
    (result (SimpleDB.update "users" "a" {[ "name" := JStr "Al" ]}) w_users =
       inr (Some updated) /\
     accesses (SimpleDB.update "users" "a" {[ "name" := JStr "Al" ]})
       w_users =
       [EvRead; EvWrite (<["users" := [] ++ updated :: [bob]]> doc_users)] /\
     file (after (SimpleDB.update "users" "a" {[ "name" := JStr "Al" ]})
             w_users) =
       Content (stringify (<["users" := [] ++ updated :: [bob]]> doc_users)))
    /\
    (result (AsyncJSONFileBasedDB.update "users" "a"
               {[ "name" := JStr "Al" ]}) w_users = inr (Some updated) /\
     accesses (AsyncJSONFileBasedDB.update "users" "a"
                 {[ "name" := JStr "Al" ]}) w_users =
       [EvRead; EvRead;
        EvWrite (<["users" := [] ++ updated :: [bob]]> doc_users)] /\
     file (after (AsyncJSONFileBasedDB.update "users" "a"
                    {[ "name" := JStr "Al" ]}) w_users) =
       Content (stringify (<["users" := [] ++ updated :: [bob]]> doc_users))).
Proof.
  apply (C2_update_keeps_id (C := tree_codec) "users" "a"
           {[ "name" := JStr "Al" ]} w_users doc_users [] [bob] alice).
  - reflexivity.
  - reflexivity.
  - constructor.
  - reflexivity.
  - reflexivity.
  - reflexivity.
Defined.

(** C2, as stated, fails: a patch that carries an [id] at run time
    replaces the [id] of the record, in the value returned and in the
    document written. *)
Lemma C2_counterexample :
  result (SimpleDB.update "users" "a" {[ "id" := JStr "z" ]}) w_users =
    inr (Some zed) /\
  accesses (SimpleDB.update "users" "a" {[ "id" := JStr "z" ]}) w_users =
    [EvRead; EvWrite (<["users" := [zed; bob]]> doc_users)] /\
  alice !! "id" = Some (JStr "a") /\
  zed !! "id" = Some (JStr "z") /\
  zed !! "id" <> alice !! "id".
Proof.
  repeat split; try reflexivity. vm_compute. discriminate.
Qed.

(** ** Reading back what was written *)

Section ReadBack.
Context {C : JSONCodec} {L : Lossless C}.

Lemma stored_commit {A : Type} (data : Document) (a : A) (w : World) :
  wfault w = None -> stored (snd (commit data a w)) = inr (Doc data).
Proof.
  intros Hw. apply (stored_decoded _ (stringify data)).
  - apply commit_ok, Hw.
  - apply parse_stringify.
Qed.

End ReadBack.

(** C3 (as amended). When exactly one record of the target collection
    carries the id, [delete(id)] returns [true]; after it [getByID(id)]
    returns not-found and [getAll()] returns the records that were there
    before, without that one and in the same order, hence one record
    fewer. In both stores. *)
Theorem C3_delete_then_read {C : JSONCodec} {L : Lossless C}
    (collection id : string) (w : World) (d : Document)
    (l1 l2 : list Entity) (r : Entity) :
  stored w = inr (Doc d) ->
  d !! collection = Some (l1 ++ r :: l2) ->
  no_match id l1 -> has_id id r = true -> no_match id l2 ->
  wfault w = None ->
  (result (SimpleDB.getAll collection) w = inr (Records (l1 ++ r :: l2)) /\
   result (SimpleDB.delete collection id) w = inr true /\
   result (SimpleDB.getByID collection id)
     (after (SimpleDB.delete collection id) w) = inr None /\
   result (SimpleDB.getAll collection)
     (after (SimpleDB.delete collection id) w) = inr (Records (l1 ++ l2))) /\
  (result (AsyncJSONFileBasedDB.getAll collection) w = inr (Records (l1 ++ r :: l2)) /\
   result (AsyncJSONFileBasedDB.delete collection id) w = inr true /\
   result (AsyncJSONFileBasedDB.getByID collection id)
     (after (AsyncJSONFileBasedDB.delete collection id) w) = inr None /\
   result (AsyncJSONFileBasedDB.getAll collection)
     (after (AsyncJSONFileBasedDB.delete collection id) w) =
     inr (Records (l1 ++ l2))) /\
  length (l1 ++ r :: l2) = S (length (l1 ++ l2)) /\
  sublist (l1 ++ l2) (l1 ++ r :: l2).
Proof.
  intros Hs Hc H1 Hr H2 Hw.
  assert (Hnone : Array.find (has_id id) (l1 ++ l2) = None).
  { rewrite find_skip by assumption. apply find_none, H2. }
  unfold result, after.
  rewrite SimpleDB_getAll_run, AsyncDB_getAll_run, Hs.
  rewrite (SimpleDB_delete_first collection id w d l1 l2 r Hs Hc H1 Hr).
  rewrite (AsyncDB_delete_first collection id w d l1 l2 r Hs Hc H1 Hr).
  rewrite SimpleDB_getByID_run, SimpleDB_getAll_run,
    AsyncDB_getByID_run, AsyncDB_getAll_run.
  rewrite !stored_commit by exact Hw.
  rewrite (target_own collection d _ Hc).
  rewrite (target_own collection _ _ (lookup_insert_eq _ _ _)).
  rewrite Hnone. simpl.
  repeat split; try (apply commit_ok; exact Hw).
  - rewrite !length_app. simpl. lia.
  - apply sublist_app; [reflexivity |]. apply sublist_cons. reflexivity.
Qed.

Lemma C3_delete_then_read_witness :
  (result (SimpleDB.getAll "users") w_users = inr (Records ([alice] ++ bob :: [])) /\
   result (SimpleDB.delete "users" "b") w_users = inr true /\
   result (SimpleDB.getByID "users" "b")
     (after (SimpleDB.delete "users" "b") w_users) = inr None /\
   result (SimpleDB.getAll "users")
     (after (SimpleDB.delete "users" "b") w_users) = inr (Records ([alice] ++ []))) /\
  (result (AsyncJSONFileBasedDB.getAll "users") w_users =
     inr (Records ([alice] ++ bob :: [])) /\
   result (AsyncJSONFileBasedDB.delete "users" "b") w_users = inr true /\
   result (AsyncJSONFileBasedDB.getByID "users" "b")
     (after (AsyncJSONFileBasedDB.delete "users" "b") w_users) = inr None /\
   result (AsyncJSONFileBasedDB.getAll "users")
     (after (AsyncJSONFileBasedDB.delete "users" "b") w_users) =
     inr (Records ([alice] ++ []))) /\
  length ([alice] ++ bob :: []) = S (length ([alice] ++ [])) /\
  sublist ([alice] ++ []) ([alice] ++ bob :: []).
Proof.
  apply (C3_delete_then_read (C := tree_codec) (L := tree_codec_lossless)
           "users" "b" w_users doc_users [alice] [] bob).
  - reflexivity.
  - reflexivity.
  - repeat constructor.
  - reflexivity.
  - constructor.
  - reflexivity.
Defined.

(** C3, as stated, fails when a second record carries the id: [delete]
    removes the first, and [getByID] then finds the second. *)
Lemma C3_counterexample :
  result (SimpleDB.getAll "users") w_dup = inr (Records [bob; alice; alias]) /\
  result (SimpleDB.delete "users" "a") w_dup = inr true /\
  result (SimpleDB.getByID "users" "a")
    (after (SimpleDB.delete "users" "a") w_dup) = inr (Some alias) /\
  result (SimpleDB.getByID "users" "a")
    (after (SimpleDB.delete "users" "a") w_dup) <> inr None.
Proof.
  repeat split; try reflexivity. vm_compute. discriminate.
Qed.

(** C5. In a collection where the first record carrying the id is [r],
    whatever comes after it (other records with the same id included):
    [getByID] returns [r]; [update] writes the collection back with [r]
    alone replaced by the merged record; [delete] writes it back with [r]
    alone removed. The records after the first match are written back as
    they were. In both stores. *)
Theorem C5_first_match_only {C : JSONCodec} (collection id : string)
    (patch : Entity) (w : World) (d : Document) (l1 l2 : list Entity)
    (r : Entity) :
  stored w = inr (Doc d) ->
  d !! collection = Some (l1 ++ r :: l2) ->
  no_match id l1 -> has_id id r = true ->
  (result (SimpleDB.getByID collection id) w = inr (Some r) /\
   accesses (SimpleDB.update collection id patch) w =
     [EvRead;
      EvWrite (<[collection := l1 ++ object_spread r patch :: l2]> d)] /\
   accesses (SimpleDB.delete collection id) w =
     [EvRead; EvWrite (<[collection := l1 ++ l2]> d)]) /\
  (result (AsyncJSONFileBasedDB.getByID collection id) w = inr (Some r) /\
   accesses (AsyncJSONFileBasedDB.update collection id patch) w =
     [EvRead; EvRead;
      EvWrite (<[collection := l1 ++ object_spread r patch :: l2]> d)] /\
   accesses (AsyncJSONFileBasedDB.delete collection id) w =
     [EvRead; EvRead; EvWrite (<[collection := l1 ++ l2]> d)]).
Proof.
  intros Hs Hc H1 Hr.
  unfold result, accesses, after.
  rewrite SimpleDB_getByID_run, AsyncDB_getByID_run, Hs.
  rewrite (SimpleDB_update_first collection id w d l1 l2 r Hs Hc H1 Hr).
  rewrite (AsyncDB_update_first collection id w d l1 l2 r Hs Hc H1 Hr).
  rewrite (SimpleDB_delete_first collection id w d l1 l2 r Hs Hc H1 Hr).
  rewrite (AsyncDB_delete_first collection id w d l1 l2 r Hs Hc H1 Hr).
  rewrite !fresh_commit, !fresh_commit2.
  rewrite (target_own collection d _ Hc), find_first by assumption.
  repeat split.
Qed.

Lemma C5_first_match_only_witness :
  (result (SimpleDB.getByID "users" "a") w_dup = inr (Some alice) /\
   accesses (SimpleDB.update "users" "a" {[ "name" := JStr "Al" ]}) w_dup =
     [EvRead;
      EvWrite (<["users" := [bob] ++
                  object_spread alice {[ "name" := JStr "Al" ]} :: [alias]]>
                 doc_dup)] /\
   accesses (SimpleDB.delete "users" "a") w_dup =
     [EvRead; EvWrite (<["users" := [bob] ++ [alias]]> doc_dup)]) /\
  (result (AsyncJSONFileBasedDB.getByID "users" "a") w_dup =
     inr (Some alice) /\
   accesses (AsyncJSONFileBasedDB.update "users" "a"
               {[ "name" := JStr "Al" ]}) w_dup =
     [EvRead; EvRead;
      EvWrite (<["users" := [bob] ++
                  object_spread alice {[ "name" := JStr "Al" ]} :: [alias]]>
                 doc_dup)] /\
   accesses (AsyncJSONFileBasedDB.delete "users" "a") w_dup =
     [EvRead; EvRead; EvWrite (<["users" := [bob] ++ [alias]]> doc_dup)]).
Proof.
  apply (C5_first_match_only (C := tree_codec) "users" "a"
           {[ "name" := JStr "Al" ]} w_dup doc_dup [bob] [alias] alice).
  - reflexivity.
  - reflexivity.
  - repeat constructor.
  - reflexivity.
Defined.

(** C6. [deleteCollection] returns [false] after one read and no write
    when the file is absent. When a document is stored it writes that
    document without the key of the collection, whether or not the key
    was there, and returns [true]; every other collection is written back
    as it was read. *)
Theorem C6_deleteCollection {C : JSONCodec} (collection : string)
    (w : World) :
  (file w = Absent ->
   result (SimpleDB.deleteCollection collection) w = inr false /\
   accesses (SimpleDB.deleteCollection collection) w = [EvRead] /\
   file (after (SimpleDB.deleteCollection collection) w) = Absent) /\
  (forall d : Document,
     stored w = inr (Doc d) -> wfault w = None ->
     result (SimpleDB.deleteCollection collection) w = inr true /\
     accesses (SimpleDB.deleteCollection collection) w =
       [EvRead; EvWrite (base.delete collection d)] /\
     file (after (SimpleDB.deleteCollection collection) w) =
       Content (stringify (base.delete collection d)) /\
     base.delete collection d !! collection = None /\
     forall name : string,
       name <> collection ->
       base.delete collection d !! name = d !! name).
Proof.
  split.
  - intros Hf. rewrite SimpleDB_deleteCollection_accesses.
    unfold result, after. rewrite SimpleDB_deleteCollection_run.
    rewrite (stored_absent w Hf). repeat split. exact Hf.
  - intros d Hs Hw. rewrite SimpleDB_deleteCollection_accesses.
    unfold result, after. rewrite SimpleDB_deleteCollection_run, Hs.
    repeat split; try (apply commit_ok; exact Hw).
    + apply lookup_delete_eq.
    + intros name Hn. apply lookup_delete_ne. congruence.
Qed.

Lemma C6_deleteCollection_witness :
  (result (SimpleDB.deleteCollection "users") w_absent = inr false /\
   accesses (SimpleDB.deleteCollection "users") w_absent = [EvRead] /\
   file (after (SimpleDB.deleteCollection "users") w_absent) = Absent) /\
  (result (SimpleDB.deleteCollection "users") w_posts = inr true /\
   accesses (SimpleDB.deleteCollection "users") w_posts =
     [EvRead; EvWrite (base.delete "users" doc_posts)] /\
   file (after (SimpleDB.deleteCollection "users") w_posts) =
     Content (stringify (base.delete "users" doc_posts)) /\
   base.delete "users" doc_posts !! "users" = None /\
   forall name : string,
     name <> "users" ->
     base.delete "users" doc_posts !! name = doc_posts !! name).
Proof.
  split.
  - apply (proj1 (C6_deleteCollection (C := tree_codec) "users" w_absent)).
    reflexivity.
  - apply (proj2 (C6_deleteCollection (C := tree_codec) "users" w_posts)
             doc_posts).
    + reflexivity.
    + reflexivity.
Defined.

(** C7. When the file does not exist, [getAll] resolves with the empty
    array and [getByID] with [undefined], for every id, in both stores. *)
Theorem C7_reads_of_absent_file {C : JSONCodec} (collection id : string)
    (w : World) :
  file w = Absent ->
  result (SimpleDB.getAll collection) w = inr (Records []) /\
  result (SimpleDB.getByID collection id) w = inr None /\
  result (AsyncJSONFileBasedDB.getAll collection) w = inr (Records []) /\
  result (AsyncJSONFileBasedDB.getByID collection id) w = inr None.
Proof.
  intros Hf. unfold result.
  rewrite SimpleDB_getAll_run, SimpleDB_getByID_run, AsyncDB_getAll_run,
    AsyncDB_getByID_run.
  rewrite (stored_absent w Hf). repeat split.
Qed.

Lemma C7_reads_of_absent_file_witness :
  result (SimpleDB.getAll "users") w_absent = inr (Records []) /\
  result (SimpleDB.getByID "users" "a") w_absent = inr None /\
  result (AsyncJSONFileBasedDB.getAll "users") w_absent = inr (Records []) /\
  result (AsyncJSONFileBasedDB.getByID "users" "a") w_absent = inr None.
Proof.
  apply (C7_reads_of_absent_file (C := tree_codec) "users" "a" w_absent).
  reflexivity.
Defined.

(** ** Failing reads and falsy content *)

Section Failures.
Context {C : JSONCodec}.

(** The read throws exactly in the two cases of [read_fails]. *)
Lemma stored_throws (w : World) (e : exn) :
  stored w = inl e <-> read_fails w e.
Proof.
  split; [|apply stored_fails].
  unfold stored, result, AsyncJSONFile.read, await, emit, try_catch,
    AsyncJSONFile.readFile, lift, resolve, reject.
  simpl. destruct (file w) as [|c|t] eqn:Hf; simpl.
  - discriminate.
  - destruct (decide (Some c = Some "ENOENT")) as [Heq | Hne]; simpl;
      [discriminate |].
    intros [= <-]. apply (io_failure w c); congruence.
  - unfold AsyncJSONFile.JSON_parse.
    destruct (parse t) as [message|v] eqn:Hp; simpl; [|discriminate].
    intros [= <-]. apply (decode_failure w t message); assumption.
Qed.

Lemma propagates_intro {A : Type} (m : Promise A) (w : World) (e : exn) :
  m w = (inl e, record EvRead w) -> propagates m w e.
Proof.
  intros H. unfold propagates, result, accesses, after. rewrite H.
  repeat split. apply fresh_read.
Qed.

Lemma stored_without_file (w : World) :
  stored (without_file w) = inr (Falsy FNull).
Proof. apply stored_absent. reflexivity. Qed.

End Failures.

(** C8. A missing file is the only read failure the store recovers from:
    the read then returns [null]. When reading the file fails with any
    other system error, or when its content does not parse, the read
    throws that error, and so does every operation of both stores, after
    this one read, with no write and the file left as it was. *)
Theorem C8_read_errors_propagate {C : JSONCodec} (collection id : string)
    (newEntity patch : Entity) (w : World) :
  (file w = Absent -> stored w = inr (Falsy FNull)) /\
  (forall e : exn,
     read_fails w e ->
     stored w = inl e /\
     (propagates (SimpleDB.create collection newEntity) w e /\
      propagates (SimpleDB.getAll collection) w e /\
      propagates (SimpleDB.getByID collection id) w e /\
      propagates (SimpleDB.update collection id patch) w e /\
      propagates (SimpleDB.delete collection id) w e /\
      propagates (SimpleDB.deleteCollection collection) w e) /\
     (propagates (AsyncJSONFileBasedDB.create collection newEntity) w e /\
      propagates (AsyncJSONFileBasedDB.getAll collection) w e /\
      propagates (AsyncJSONFileBasedDB.getByID collection id) w e /\
      propagates (AsyncJSONFileBasedDB.update collection id patch) w e /\
      propagates (AsyncJSONFileBasedDB.delete collection id) w e)).
Proof.
  split; [apply stored_absent |].
  intros e He. apply stored_fails in He as Hs.
  split; [exact Hs |].
  repeat match goal with |- _ /\ _ => split end; apply propagates_intro.
  - rewrite SimpleDB_create_run, Hs. reflexivity.
  - rewrite SimpleDB_getAll_run, Hs. reflexivity.
  - rewrite SimpleDB_getByID_run, Hs. reflexivity.
  - rewrite SimpleDB_update_run, Hs. reflexivity.
  - rewrite SimpleDB_delete_run, Hs. reflexivity.
  - rewrite SimpleDB_deleteCollection_run, Hs. reflexivity.
  - rewrite AsyncDB_create_run, Hs. reflexivity.
  - rewrite AsyncDB_getAll_run, Hs. reflexivity.
  - rewrite AsyncDB_getByID_run, Hs. reflexivity.
  - rewrite AsyncDB_update_run, Hs. reflexivity.
  - rewrite AsyncDB_delete_run, Hs. reflexivity.
Qed.

Lemma C8_read_errors_propagate_witness :
  stored w_absent = inr (Falsy FNull) /\
  (stored w_denied = inl (ErrnoException "EACCES") /\
   (propagates (SimpleDB.create "users" bob) w_denied
      (ErrnoException "EACCES") /\
    propagates (SimpleDB.getAll "users") w_denied
      (ErrnoException "EACCES") /\
    propagates (SimpleDB.getByID "users" "a") w_denied
      (ErrnoException "EACCES") /\
    propagates (SimpleDB.update "users" "a" ∅) w_denied
      (ErrnoException "EACCES") /\
    propagates (SimpleDB.delete "users" "a") w_denied
      (ErrnoException "EACCES") /\
    propagates (SimpleDB.deleteCollection "users") w_denied
      (ErrnoException "EACCES")) /\
   (propagates (AsyncJSONFileBasedDB.create "users" bob) w_denied
      (ErrnoException "EACCES") /\
    propagates (AsyncJSONFileBasedDB.getAll "users") w_denied
      (ErrnoException "EACCES") /\
    propagates (AsyncJSONFileBasedDB.getByID "users" "a") w_denied
      (ErrnoException "EACCES") /\
    propagates (AsyncJSONFileBasedDB.update "users" "a" ∅) w_denied
      (ErrnoException "EACCES") /\
    propagates (AsyncJSONFileBasedDB.delete "users" "a") w_denied
      (ErrnoException "EACCES"))) /\
  propagates (SimpleDB.getAll "users") w_garbled (SyntaxError "{users:").
Proof.
  split; [|split].
  - apply (proj1 (C8_read_errors_propagate (C := tree_codec) "users" "a"
                    bob ∅ w_absent)).
    reflexivity.
  - apply (proj2 (C8_read_errors_propagate (C := tree_codec) "users" "a"
                    bob ∅ w_denied)).
    apply (io_failure (C := tree_codec) w_denied "EACCES").
    + reflexivity.
    + discriminate.
  - apply (proj2 (C8_read_errors_propagate (C := tree_codec) "users" "a"
                    bob ∅ w_garbled) (SyntaxError "{users:")).
    apply (decode_failure (C := tree_codec) w_garbled
             (Malformed "{users:") "{users:"); reflexivity.
Defined.

(** C9. When the file holds text that parses to a falsy value, no
    operation throws and each returns what it returns when the file is
    absent: [getAll] the empty array, [getByID] and [update] not-found,
    [delete] and [deleteCollection] [false], all after one read and no
    write; [create] returns its argument and writes the same one-collection
    document. In both stores. *)
Theorem C9_falsy_content {C : JSONCodec} (collection id : string)
    (newEntity patch : Entity) (w : World) (t : text) (f : falsy) :
  file w = Content t -> parse t = inr (Falsy f) ->
  ((result (SimpleDB.getAll collection) w = inr (Records []) /\
    result (SimpleDB.getByID collection id) w = inr None /\
    result (SimpleDB.update collection id patch) w = inr None /\
    result (SimpleDB.delete collection id) w = inr false /\
    result (SimpleDB.deleteCollection collection) w = inr false) /\
   (result (AsyncJSONFileBasedDB.getAll collection) w = inr (Records []) /\
    result (AsyncJSONFileBasedDB.getByID collection id) w = inr None /\
    result (AsyncJSONFileBasedDB.update collection id patch) w = inr None /\
    result (AsyncJSONFileBasedDB.delete collection id) w = inr false)) /\
  ((as_if_absent (SimpleDB.create collection newEntity) w /\
    as_if_absent (SimpleDB.getAll collection) w /\
    as_if_absent (SimpleDB.getByID collection id) w /\
    as_if_absent (SimpleDB.update collection id patch) w /\
    as_if_absent (SimpleDB.delete collection id) w /\
    as_if_absent (SimpleDB.deleteCollection collection) w) /\
   (as_if_absent (AsyncJSONFileBasedDB.create collection newEntity) w /\
    as_if_absent (AsyncJSONFileBasedDB.getAll collection) w /\
    as_if_absent (AsyncJSONFileBasedDB.getByID collection id) w /\
    as_if_absent (AsyncJSONFileBasedDB.update collection id patch) w /\
    as_if_absent (AsyncJSONFileBasedDB.delete collection id) w)).
Proof.
  intros Hf Hp. pose proof (stored_decoded w t (Falsy f) Hf Hp) as Hs.
  pose proof (stored_without_file w) as H0.
  split.
  - unfold result.
    rewrite SimpleDB_getAll_run, SimpleDB_getByID_run, SimpleDB_update_run,
      SimpleDB_delete_run, SimpleDB_deleteCollection_run,
      AsyncDB_getAll_run, AsyncDB_getByID_run, AsyncDB_update_run,
      AsyncDB_delete_run.
    rewrite Hs. repeat split.
  - unfold as_if_absent, result, accesses, after.
    rewrite !SimpleDB_create_run, !SimpleDB_getAll_run,
      !SimpleDB_getByID_run, !SimpleDB_update_run, !SimpleDB_delete_run,
      !SimpleDB_deleteCollection_run, !AsyncDB_create_run,
      !AsyncDB_getAll_run, !AsyncDB_getByID_run, !AsyncDB_update_run,
      !AsyncDB_delete_run.
    rewrite Hs, H0. simpl.
    unfold commit. simpl. destruct (wfault w); repeat split.
Qed.

Lemma C9_falsy_content_witness :
  ((result (SimpleDB.getAll "users") w_zero = inr (Records []) /\
    result (SimpleDB.getByID "users" "a") w_zero = inr None /\
    result (SimpleDB.update "users" "a" ∅) w_zero = inr None /\
    result (SimpleDB.delete "users" "a") w_zero = inr false /\
    result (SimpleDB.deleteCollection "users") w_zero = inr false) /\
   (result (AsyncJSONFileBasedDB.getAll "users") w_zero = inr (Records []) /\
    result (AsyncJSONFileBasedDB.getByID "users" "a") w_zero = inr None /\
    result (AsyncJSONFileBasedDB.update "users" "a" ∅) w_zero = inr None /\
    result (AsyncJSONFileBasedDB.delete "users" "a") w_zero = inr false)) /\
  ((as_if_absent (SimpleDB.create "users" bob) w_zero /\
    as_if_absent (SimpleDB.getAll "users") w_zero /\
    as_if_absent (SimpleDB.getByID "users" "a") w_zero /\
    as_if_absent (SimpleDB.update "users" "a" ∅) w_zero /\
    as_if_absent (SimpleDB.delete "users" "a") w_zero /\
    as_if_absent (SimpleDB.deleteCollection "users") w_zero) /\
   (as_if_absent (AsyncJSONFileBasedDB.create "users" bob) w_zero /\
    as_if_absent (AsyncJSONFileBasedDB.getAll "users") w_zero /\
    as_if_absent (AsyncJSONFileBasedDB.getByID "users" "a") w_zero /\
    as_if_absent (AsyncJSONFileBasedDB.update "users" "a" ∅) w_zero /\
    as_if_absent (AsyncJSONFileBasedDB.delete "users" "a") w_zero)).
Proof.
  apply (C9_falsy_content (C := tree_codec) "users" "a" bob ∅ w_zero
           (WellFormed (Falsy FZero)) FZero).
  - reflexivity.
  - reflexivity.
Defined.

(** C10. Whatever [create], [update] or [delete] writes, in either store,
    maps every collection name other than the store's own to the records
    it has in what was read (no records when the read returned a falsy
    value). *)
Theorem C10_other_collections_kept {C : JSONCodec} (collection id : string)
    (newEntity patch : Entity) (w : World) (v : decoded) (data : Document)
    (name : string) :
  stored w = inr v ->
  name <> collection ->
  In (EvWrite data)
    (accesses (SimpleDB.create collection newEntity) w ++
     accesses (SimpleDB.update collection id patch) w ++
     accesses (SimpleDB.delete collection id) w ++
     accesses (AsyncJSONFileBasedDB.create collection newEntity) w ++
     accesses (AsyncJSONFileBasedDB.update collection id patch) w ++
     accesses (AsyncJSONFileBasedDB.delete collection id) w) ->
  data !! name = spread v !! name.
Proof.
  intros Hs Hn.
  rewrite SimpleDB_create_accesses, SimpleDB_update_accesses,
    SimpleDB_delete_accesses, AsyncDB_create_accesses,
    AsyncDB_update_accesses, AsyncDB_delete_accesses.
  rewrite Hs.
  assert (Hkeep : forall (l : list Entity) (d : Document),
             EvWrite (<[collection := l]> d) = EvWrite data ->
             data !! name = d !! name).
  { intros l d [= <-]. apply lookup_insert_ne. congruence. }
  destruct (appended (target collection v) newEntity) as [e|items];
    destruct (found collection id w);
    destruct v as [f|d]; simpl;
    intros H; repeat (destruct H as [H | H]; try discriminate H);
    try contradiction; eauto.
Qed.

Lemma C10_other_collections_kept_witness :
  <["users" := [alice; bob; bob]]> doc_users !! "posts" =
  spread (Doc doc_users) !! "posts".
Proof.
  apply (C10_other_collections_kept (C := tree_codec) "users" "a" bob
           {[ "name" := JStr "Al" ]} w_users (Doc doc_users)
           (<["users" := [alice; bob; bob]]> doc_users) "posts").
  - reflexivity.
  - discriminate.
  - vm_compute. right. left. reflexivity.
Defined.

(** * Beyond the claims *)

(** ** The storage layer *)

Section StorageMore.
Context {C : JSONCodec}.

Lemma commit_failed {A : Type} (data : Document) (a : A) (w : World)
    (c : string) :
  wfault w = Some c ->
  commit data a w = (inl (ErrnoException c), record (EvWrite data) w).
Proof. intros H. unfold commit. rewrite H. reflexivity. Qed.

Lemma commit_file {A : Type} (data : Document) (a : A) (w : World) :
  file (snd (commit data a w)) =
  match wfault w with
  | None => Content (stringify data)
  | Some _ => file w
  end.
Proof. unfold commit. destruct (wfault w); reflexivity. Qed.

Lemma commit_result {A : Type} (data : Document) (a : A) (w : World) :
  fst (commit data a w) =
  match wfault w with
  | None => inr a
  | Some c => inl (ErrnoException c)
  end.
Proof. unfold commit. destruct (wfault w); reflexivity. Qed.

Lemma commit_wfault {A : Type} (data : Document) (a : A) (w : World) :
  wfault w = None -> wfault (snd (commit data a w)) = None.
Proof. intros H. unfold commit. rewrite H. reflexivity. Qed.

Lemma stored_commit_cases {L : Lossless C} {A : Type} (data : Document)
    (a : A) (w : World) :
  stored (snd (commit data a w)) =
  match wfault w with
  | None => inr (Doc data)
  | Some _ => stored w
  end.
Proof.
  destruct (wfault w) as [c|] eqn:Hw.
  - rewrite (commit_failed data a w c Hw). apply stored_record.
  - apply stored_commit, Hw.
Qed.

Lemma write_after (data : Document) (w : World) :
  AsyncJSONFile.write data w = commit data tt w.
Proof.
  rewrite write_run. unfold commit. destruct (wfault w); reflexivity.
Qed.

End StorageMore.

(** X1. [read] throws exactly when reading the file fails with a system
    error other than [ENOENT] or when the content does not parse, and it
    then throws that very error; whatever it returns or throws, it reads
    once and changes nothing. *)
Theorem X1_read_outcomes {C : JSONCodec} (w : World) (e : exn) :
  (result AsyncJSONFile.read w = inl e <-> read_fails w e) /\
  read_only AsyncJSONFile.read w.
Proof.
  split; [apply stored_throws |].
  unfold read_only, accesses, after. rewrite read_run.
  split; [apply fresh_read | reflexivity].
Qed.

Lemma X1_read_outcomes_witness :
  result AsyncJSONFile.read w_garbled = inl (SyntaxError "{users:") /\
  read_fails w_denied (ErrnoException "EACCES").
Proof.
  split.
  - apply (proj1 (X1_read_outcomes (C := tree_codec) w_garbled
                    (SyntaxError "{users:"))).
    apply (decode_failure (C := tree_codec) w_garbled
             (Malformed "{users:") "{users:"); reflexivity.
  - apply (proj1 (X1_read_outcomes (C := tree_codec) w_denied
                    (ErrnoException "EACCES"))).
    reflexivity.
Defined.

(** X2. A [write] that succeeds replaces whatever the path held, readable
    or not: the next [read] returns the document written. A [write] that
    fails rejects with its error, and the next [read] does what it would
    have done before. *)
Theorem X2_write_then_read {C : JSONCodec} {L : Lossless C}
    (data : Document) (w : World) :
  (wfault w = None ->
   result (AsyncJSONFile.write data) w = inr tt /\
   result AsyncJSONFile.read (after (AsyncJSONFile.write data) w) =
     inr (Doc data)) /\
  (forall c : string,
     wfault w = Some c ->
     result (AsyncJSONFile.write data) w = inl (ErrnoException c) /\
     result AsyncJSONFile.read (after (AsyncJSONFile.write data) w) =
       result AsyncJSONFile.read w).
Proof.
  unfold result at 1 3, after. rewrite write_after. fold (stored w).
  split.
  - intros Hw. split; [apply commit_ok, Hw |].
    apply (stored_commit data tt w Hw).
  - intros c Hw. rewrite (commit_failed data tt w c Hw). split.
    + reflexivity.
    + apply stored_record.
Qed.

Lemma X2_write_then_read_witness :
  (result (AsyncJSONFile.write doc_posts) w_denied = inr tt /\
   result AsyncJSONFile.read (after (AsyncJSONFile.write doc_posts) w_denied)
     = inr (Doc doc_posts)) /\
  (result (AsyncJSONFile.write doc_posts) w_readonly =
     inl (ErrnoException "EROFS") /\
   result AsyncJSONFile.read
     (after (AsyncJSONFile.write doc_posts) w_readonly) =
     result AsyncJSONFile.read w_readonly).
Proof.
  split.
  - apply (proj1 (X2_write_then_read (C := tree_codec)
                    (L := tree_codec_lossless) doc_posts w_denied)).
    reflexivity.
  - apply (proj2 (X2_write_then_read (C := tree_codec)
                    (L := tree_codec_lossless) doc_posts w_readonly)).
    reflexivity.
Defined.

(** ** Reading operations *)

(** X3. [getAll], [getByID] and [getEntities] read the storage once and
    never write to it, whatever the file holds and whether they return or
    throw. *)
Theorem X3_queries_read_only {C : JSONCodec} (collection id : string)
    (w : World) :
  read_only (SimpleDB.getAll collection) w /\
  read_only (SimpleDB.getByID collection id) w /\
  read_only SimpleDB.getEntities w /\
  read_only (AsyncJSONFileBasedDB.getAll collection) w /\
  read_only (AsyncJSONFileBasedDB.getByID collection id) w.
Proof.
  unfold read_only, accesses, after, SimpleDB.getEntities.
  rewrite SimpleDB_getAll_run, SimpleDB_getByID_run, read_run,
    AsyncDB_getAll_run, AsyncDB_getByID_run.
  simpl. rewrite drop_app_length. repeat split.
Qed.

Section Lookup.
Context {A : Type} (p : A -> bool).

Lemma find_some (l : list A) (x : A) :
  Array.find p l = Some x ->
  exists l1 l2,
    l = l1 ++ x :: l2 /\ Forall (fun y => p y = false) l1 /\ p x = true.
Proof.
  induction l as [|y l IH]; simpl; [discriminate |].
  destruct (p y) eqn:Hy.
  - intros [= ->]. exists [], l. repeat split; [constructor | exact Hy].
  - intros H. destruct (IH H) as (l1 & l2 & -> & H1 & Hx).
    exists (y :: l1), l2. repeat split; [|exact Hx].
    constructor; assumption.
Qed.

Lemma find_none_all (l : list A) :
  Array.find p l = None -> Forall (fun y => p y = false) l.
Proof.
  induction l as [|y l IH]; simpl; [constructor |].
  destruct (p y) eqn:Hy; [discriminate |].
  intros H. constructor; [exact Hy | apply IH, H].
Qed.

End Lookup.

Lemma has_id_field (id : string) (entity : Entity) :
  has_id id entity = true <-> entity !! "id" = Some (JStr id).
Proof.
  unfold has_id. destruct (entity !! "id") as [[| | |s| |]|];
    try (split; [discriminate | intros [=]]).
  rewrite String.eqb_eq. split; [intros ->; reflexivity | intros [= ->]].
  reflexivity.
Qed.

(** X4. [getByID(id)] answers from the records [getAll] returns: a record
    it returns is the first of them whose [id] field is the string [id];
    it returns [undefined] exactly when no record has that field, so a
    record without [id], or with an [id] that is not a string, is never
    returned. In both stores. *)
Theorem X4_getByID_among_getAll {C : JSONCodec} (collection id : string)
    (w : World) (l : list Entity) :
  result (SimpleDB.getAll collection) w = inr (Records l) ->
  (result (SimpleDB.getByID collection id) w = inr (Array.find (has_id id) l)
   /\
   result (AsyncJSONFileBasedDB.getByID collection id) w =
     inr (Array.find (has_id id) l)) /\
  (forall r : Entity,
     Array.find (has_id id) l = Some r ->
     exists l1 l2,
       l = l1 ++ r :: l2 /\ r !! "id" = Some (JStr id) /\
       forall r' : Entity, r' ∈ l1 -> r' !! "id" <> Some (JStr id)) /\
  (Array.find (has_id id) l = None <->
   forall r : Entity, r ∈ l -> r !! "id" <> Some (JStr id)).
Proof.
  intros Hall. unfold result in *.
  rewrite SimpleDB_getAll_run in Hall.
  rewrite SimpleDB_getByID_run, AsyncDB_getByID_run.
  destruct (stored w) as [e|v]; [discriminate |].
  simpl in Hall.
  assert (Hfind : match target collection v with
                  | Records l' => inr (Array.find (has_id id) l')
                  | Member _ => inl TypeError
                  | Nullish => inr None
                  end = @inr exn _ (Array.find (has_id id) l)).
  { destruct (target collection v); simpl in Hall; try discriminate;
      injection Hall as <-; reflexivity. }
  split; [|split].
  - rewrite Hfind. split; reflexivity.
  - intros r Hr. destruct (find_some _ _ _ Hr) as (l1 & l2 & Hl & H1 & Hx).
    exists l1, l2. split; [exact Hl |].
    split; [apply has_id_field, Hx |].
    intros r' Hin Hid. apply has_id_field in Hid.
    rewrite Forall_forall in H1. specialize (H1 r' Hin). congruence.
  - split.
    + intros Hn r Hin Hid. apply find_none_all in Hn.
      rewrite Forall_forall in Hn. specialize (Hn r Hin).
      apply has_id_field in Hid. congruence.
    + intros Hno. apply find_none. apply Forall_forall.
      intros r Hin. destruct (has_id id r) eqn:Hr; [|reflexivity].
      exfalso. apply (Hno r Hin). apply has_id_field, Hr.
Qed.

Lemma X4_getByID_among_getAll_witness :
  (result (SimpleDB.getByID "users" "b") w_users =
     inr (Array.find (has_id "b") [alice; bob]) /\
   result (AsyncJSONFileBasedDB.getByID "users" "b") w_users =
     inr (Array.find (has_id "b") [alice; bob])) /\
  (forall r : Entity,
     Array.find (has_id "b") [alice; bob] = Some r ->
     exists l1 l2,
       [alice; bob] = l1 ++ r :: l2 /\ r !! "id" = Some (JStr "b") /\
       forall r' : Entity, r' ∈ l1 -> r' !! "id" <> Some (JStr "b")) /\
  (Array.find (has_id "b") [alice; bob] = None <->
   forall r : Entity, r ∈ [alice; bob] -> r !! "id" <> Some (JStr "b")).
Proof.
  apply (X4_getByID_among_getAll (C := tree_codec) "users" "b" w_users
           [alice; bob]).
  reflexivity.
Defined.

(** ** The two stores side by side *)

Section Variants.
Context {C : JSONCodec}.
Variable collection : string.

Lemma commit_twice_read {A : Type} (data : Document) (a : A) (w : World) :
  fst (commit data a (record EvRead (record EvRead w))) =
    fst (commit data a (record EvRead w)) /\
  file (snd (commit data a (record EvRead (record EvRead w)))) =
    file (snd (commit data a (record EvRead w))).
Proof. unfold commit. simpl. destruct (wfault w); split; reflexivity. Qed.

Lemma create_same_outcome (newEntity : Entity) (w : World) :
  same_outcome (AsyncJSONFileBasedDB.create collection newEntity)
    (SimpleDB.create collection newEntity) w.
Proof.
  unfold same_outcome.
  rewrite AsyncDB_create_accesses, SimpleDB_create_accesses.
  unfold result, after. rewrite AsyncDB_create_run, SimpleDB_create_run.
  destruct (stored w) as [e|v]; [repeat split |].
  destruct (appended (target collection v) newEntity) as [e|items];
    [repeat split |].
  split; [apply commit_twice_read |].
  split; [apply commit_twice_read | reflexivity].
Qed.

Lemma update_same_outcome (id : string) (patch : Entity) (w : World) :
  same_outcome (AsyncJSONFileBasedDB.update collection id patch)
    (SimpleDB.update collection id patch) w.
Proof.
  unfold same_outcome.
  rewrite AsyncDB_update_accesses, SimpleDB_update_accesses.
  unfold result, after, found.
  rewrite AsyncDB_update_run, SimpleDB_update_run.
  destruct (stored w) as [e|v]; [repeat split |].
  destruct (target collection v) as [l|name|] eqn:Ht; [|repeat split ..].
  destruct (target_some collection v l Ht) as (d & -> & Hd).
  cbv zeta.
  destruct (Array.findIndex (has_id id) l =? -1); simpl; [repeat split |].
  split; [apply commit_twice_read |].
  split; [apply commit_twice_read | reflexivity].
Qed.

Lemma delete_same_outcome (id : string) (w : World) :
  same_outcome (AsyncJSONFileBasedDB.delete collection id)
    (SimpleDB.delete collection id) w.
Proof.
  unfold same_outcome.
  rewrite AsyncDB_delete_accesses, SimpleDB_delete_accesses.
  unfold result, after, found.
  rewrite AsyncDB_delete_run, SimpleDB_delete_run.
  destruct (stored w) as [e|v]; [repeat split |].
  destruct (target collection v) as [l|name|] eqn:Ht; [|repeat split ..].
  destruct (target_some collection v l Ht) as (d & -> & Hd).
  cbv zeta.
  destruct (Array.findIndex (has_id id) l =? -1); simpl; [repeat split |].
  split; [apply commit_twice_read |].
  split; [apply commit_twice_read | reflexivity].
Qed.

Lemma queries_same (id : string) (w : World) :
  AsyncJSONFileBasedDB.getAll collection w = SimpleDB.getAll collection w /\
  AsyncJSONFileBasedDB.getByID collection id w =
    SimpleDB.getByID collection id w.
Proof.
  rewrite AsyncDB_getAll_run, SimpleDB_getAll_run, AsyncDB_getByID_run,
    SimpleDB_getByID_run.
  split; reflexivity.
Qed.

End Variants.

(** X5. [AsyncJSONFileBasedDB] and [SimpleDB] are the same store: from any
    world, [create], [update] and [delete] give the same result, leave the
    same file and hand the same document to [storage.write] (only the
    second read of the former tells them apart), while [getAll] and
    [getByID] run identically. *)
Theorem X5_stores_agree {C : JSONCodec} (collection id : string)
    (newEntity patch : Entity) (w : World) :
  same_outcome (AsyncJSONFileBasedDB.create collection newEntity)
    (SimpleDB.create collection newEntity) w /\
  same_outcome (AsyncJSONFileBasedDB.update collection id patch)
    (SimpleDB.update collection id patch) w /\
  same_outcome (AsyncJSONFileBasedDB.delete collection id)
    (SimpleDB.delete collection id) w /\
  AsyncJSONFileBasedDB.getAll collection w = SimpleDB.getAll collection w /\
  AsyncJSONFileBasedDB.getByID collection id w =
    SimpleDB.getByID collection id w.
Proof.
  split; [apply create_same_outcome |].
  split; [apply update_same_outcome |].
  split; [apply delete_same_outcome |].
  apply queries_same.
Qed.

(** ** What is stored after a mutation *)

Section PostState.
Context {C : JSONCodec}.
Variable collection : string.

Lemma commit_wfault_same {A : Type} (data : Document) (a : A) (w : World) :
  wfault (snd (commit data a w)) = wfault w.
Proof. unfold commit. destruct (wfault w) eqn:H; simpl; congruence. Qed.

(** No operation changes whether the path can be written. *)
Lemma wfault_kept (id : string) (newEntity patch : Entity) (w : World) :
  wfault (after (SimpleDB.create collection newEntity) w) = wfault w /\
  wfault (after (SimpleDB.update collection id patch) w) = wfault w /\
  wfault (after (SimpleDB.delete collection id) w) = wfault w /\
  wfault (after (SimpleDB.deleteCollection collection) w) = wfault w /\
  wfault (after (AsyncJSONFileBasedDB.create collection newEntity) w) =
    wfault w /\
  wfault (after (AsyncJSONFileBasedDB.update collection id patch) w) =
    wfault w /\
  wfault (after (AsyncJSONFileBasedDB.delete collection id) w) = wfault w.
Proof.
  unfold after.
  rewrite SimpleDB_create_run, SimpleDB_update_run, SimpleDB_delete_run,
    SimpleDB_deleteCollection_run, AsyncDB_create_run, AsyncDB_update_run,
    AsyncDB_delete_run.
  cbv zeta.
  repeat split;
    repeat match goal with
           | |- context [match ?x with _ => _ end] => destruct x
           end;
    rewrite ?commit_wfault_same; reflexivity.
Qed.

Lemma listed_appended (v : decoded) (old : list Entity) (x : Entity) :
  listed collection v = Some old ->
  appended (target collection v) x = inr (old ++ [x]).
Proof.
  unfold listed. destruct (target collection v); intros [= <-]; reflexivity.
Qed.

(** What the queries return when the collection is an own key. *)
Lemma queries_of_stored (id : string) (w : World) (d : Document)
    (l : list Entity) :
  stored w = inr (Doc d) -> d !! collection = Some l ->
  result (SimpleDB.getAll collection) w = inr (Records l) /\
  result (SimpleDB.getByID collection id) w =
    inr (Array.find (has_id id) l) /\
  result (AsyncJSONFileBasedDB.getAll collection) w = inr (Records l) /\
  result (AsyncJSONFileBasedDB.getByID collection id) w =
    inr (Array.find (has_id id) l).
Proof.
  intros Hs Hc. unfold result.
  rewrite SimpleDB_getAll_run, SimpleDB_getByID_run, AsyncDB_getAll_run,
    AsyncDB_getByID_run, Hs, (target_own collection d l Hc).
  repeat split.
Qed.

Context {L : Lossless C}.

Lemma create_stored (newEntity : Entity) (w : World) (v : decoded)
    (old : list Entity) :
  stored w = inr v -> listed collection v = Some old -> wfault w = None ->
  result (SimpleDB.create collection newEntity) w = inr newEntity /\
  stored (after (SimpleDB.create collection newEntity) w) =
    inr (Doc (<[collection := old ++ [newEntity]]> (spread v))).
Proof.
  intros Hs Hl Hw. unfold result, after.
  rewrite SimpleDB_create_run, Hs, (listed_appended v old _ Hl).
  split; [apply commit_ok, Hw | apply stored_commit, Hw].
Qed.

Lemma update_stored (id : string) (patch : Entity) (w : World)
    (d : Document) (l1 l2 : list Entity) (r : Entity) :
  stored w = inr (Doc d) -> d !! collection = Some (l1 ++ r :: l2) ->
  no_match id l1 -> has_id id r = true -> wfault w = None ->
  result (SimpleDB.update collection id patch) w =
    inr (Some (object_spread r patch)) /\
  stored (after (SimpleDB.update collection id patch) w) =
    inr (Doc (<[collection := l1 ++ object_spread r patch :: l2]> d)).
Proof.
  intros Hs Hc H1 Hr Hw. unfold result, after.
  rewrite (SimpleDB_update_first collection id w d l1 l2 r Hs Hc H1 Hr).
  split; [apply commit_ok, Hw | apply stored_commit, Hw].
Qed.

Lemma delete_stored (id : string) (w : World) (d : Document)
    (l1 l2 : list Entity) (r : Entity) :
  stored w = inr (Doc d) -> d !! collection = Some (l1 ++ r :: l2) ->
  no_match id l1 -> has_id id r = true -> wfault w = None ->
  result (SimpleDB.delete collection id) w = inr true /\
  stored (after (SimpleDB.delete collection id) w) =
    inr (Doc (<[collection := l1 ++ l2]> d)).
Proof.
  intros Hs Hc H1 Hr Hw. unfold result, after.
  rewrite (SimpleDB_delete_first collection id w d l1 l2 r Hs Hc H1 Hr).
  split; [apply commit_ok, Hw | apply stored_commit, Hw].
Qed.

Lemma deleteCollection_stored (w : World) (d : Document) :
  stored w = inr (Doc d) -> wfault w = None ->
  result (SimpleDB.deleteCollection collection) w = inr true /\
  stored (after (SimpleDB.deleteCollection collection) w) =
    inr (Doc (base.delete collection d)).
Proof.
  intros Hs Hw. unfold result, after.
  rewrite SimpleDB_deleteCollection_run, Hs.
  split; [apply commit_ok, Hw | apply stored_commit, Hw].
Qed.

(** The same for [AsyncJSONFileBasedDB], which leaves the same file. *)
Lemma async_create_stored (newEntity : Entity) (w : World) (v : decoded)
    (old : list Entity) :
  stored w = inr v -> listed collection v = Some old -> wfault w = None ->
  result (AsyncJSONFileBasedDB.create collection newEntity) w =
    inr newEntity /\
  stored (after (AsyncJSONFileBasedDB.create collection newEntity) w) =
    inr (Doc (<[collection := old ++ [newEntity]]> (spread v))).
Proof.
  intros Hs Hl Hw.
  destruct (create_same_outcome collection newEntity w) as (Hr & Hf & _).
  rewrite Hr, (stored_file _ _ Hf). apply create_stored; assumption.
Qed.

Lemma async_update_stored (id : string) (patch : Entity) (w : World)
    (d : Document) (l1 l2 : list Entity) (r : Entity) :
  stored w = inr (Doc d) -> d !! collection = Some (l1 ++ r :: l2) ->
  no_match id l1 -> has_id id r = true -> wfault w = None ->
  result (AsyncJSONFileBasedDB.update collection id patch) w =
    inr (Some (object_spread r patch)) /\
  stored (after (AsyncJSONFileBasedDB.update collection id patch) w) =
    inr (Doc (<[collection := l1 ++ object_spread r patch :: l2]> d)).
Proof.
  intros Hs Hc H1 Hr Hw.
  destruct (update_same_outcome collection id patch w) as (Hres & Hf & _).
  rewrite Hres, (stored_file _ _ Hf). apply update_stored; assumption.
Qed.

Lemma async_delete_stored (id : string) (w : World) (d : Document)
    (l1 l2 : list Entity) (r : Entity) :
  stored w = inr (Doc d) -> d !! collection = Some (l1 ++ r :: l2) ->
  no_match id l1 -> has_id id r = true -> wfault w = None ->
  result (AsyncJSONFileBasedDB.delete collection id) w = inr true /\
  stored (after (AsyncJSONFileBasedDB.delete collection id) w) =
    inr (Doc (<[collection := l1 ++ l2]> d)).
Proof.
  intros Hs Hc H1 Hr Hw.
  destruct (delete_same_outcome collection id w) as (Hres & Hf & _).
  rewrite Hres, (stored_file _ _ Hf). apply (delete_stored id w d l1 l2 r);
    assumption.
Qed.

End PostState.

Lemma listed_own (collection : string) (d : Document) (l : list Entity) :
  d !! collection = Some l -> listed collection (Doc d) = Some l.
Proof.
  intros H. unfold listed. rewrite (target_own collection d l H).
  reflexivity.
Qed.

(** ** Create, then read *)

(** X6. When the name of the collection does not resolve to a member of
    [Object.prototype] in what was read, [create] returns its argument;
    afterwards [getAll] returns the records that were there ([old]; none
    when the collection, or the file, was missing) with the new one at
    the end, and [getByID] with the id of the new record returns it,
    provided no older record carries that id. In both stores. *)
Theorem X6_create_then_read {C : JSONCodec} {L : Lossless C}
    (collection id : string) (newEntity : Entity) (w : World)
    (v : decoded) (old : list Entity) :
  stored w = inr v -> listed collection v = Some old -> wfault w = None ->
  has_id id newEntity = true -> no_match id old ->
  (result (SimpleDB.create collection newEntity) w = inr newEntity /\
   result (SimpleDB.getAll collection)
     (after (SimpleDB.create collection newEntity) w) =
     inr (Records (old ++ [newEntity])) /\
   result (SimpleDB.getByID collection id)
     (after (SimpleDB.create collection newEntity) w) =
     inr (Some newEntity)) /\
  (result (AsyncJSONFileBasedDB.create collection newEntity) w =
     inr newEntity /\
   result (AsyncJSONFileBasedDB.getAll collection)
     (after (AsyncJSONFileBasedDB.create collection newEntity) w) =
     inr (Records (old ++ [newEntity])) /\
   result (AsyncJSONFileBasedDB.getByID collection id)
     (after (AsyncJSONFileBasedDB.create collection newEntity) w) =
     inr (Some newEntity)).
Proof.
  intros Hs Hl Hw He Hold.
  destruct (create_stored collection newEntity w v old Hs Hl Hw)
    as [Hr Hafter].
  destruct (async_create_stored collection newEntity w v old Hs Hl Hw)
    as [Hr' Hafter'].
  destruct (queries_of_stored collection id _ _ _ Hafter
              (lookup_insert_eq _ _ _)) as (Ha & Hg & _).
  destruct (queries_of_stored collection id _ _ _ Hafter'
              (lookup_insert_eq _ _ _)) as (_ & _ & Ha' & Hg').
  rewrite find_first in Hg, Hg' by assumption.
  repeat split; assumption.
Qed.

Lemma X6_create_then_read_witness :
  (result (SimpleDB.create "users" carol) w_absent = inr carol /\
   result (SimpleDB.getAll "users")
     (after (SimpleDB.create "users" carol) w_absent) =
     inr (Records ([] ++ [carol])) /\
   result (SimpleDB.getByID "users" "c")
     (after (SimpleDB.create "users" carol) w_absent) = inr (Some carol)) /\
  (result (AsyncJSONFileBasedDB.create "users" carol) w_absent =
     inr carol /\
   result (AsyncJSONFileBasedDB.getAll "users")
     (after (AsyncJSONFileBasedDB.create "users" carol) w_absent) =
     inr (Records ([] ++ [carol])) /\
   result (AsyncJSONFileBasedDB.getByID "users" "c")
     (after (AsyncJSONFileBasedDB.create "users" carol) w_absent) =
     inr (Some carol)).
Proof.
  apply (X6_create_then_read (C := tree_codec) (L := tree_codec_lossless)
           "users" "c" carol w_absent (Falsy FNull) []).
  - reflexivity.
  - reflexivity.
  - reflexivity.
  - reflexivity.
  - constructor.
Defined.

(** X7. [create] does not check the id: when a stored record already
    carries it, the new record is stored all the same, after it, and
    [getByID] keeps returning the older record. In both stores. *)
Theorem X7_create_duplicate_shadowed {C : JSONCodec} {L : Lossless C}
    (collection id : string) (newEntity : Entity) (w : World)
    (d : Document) (l1 l2 : list Entity) (r : Entity) :
  stored w = inr (Doc d) -> wfault w = None ->
  d !! collection = Some (l1 ++ r :: l2) ->
  no_match id l1 -> has_id id r = true ->
  (result (SimpleDB.getAll collection)
     (after (SimpleDB.create collection newEntity) w) =
     inr (Records ((l1 ++ r :: l2) ++ [newEntity])) /\
   result (SimpleDB.getByID collection id)
     (after (SimpleDB.create collection newEntity) w) = inr (Some r)) /\
  (result (AsyncJSONFileBasedDB.getAll collection)
     (after (AsyncJSONFileBasedDB.create collection newEntity) w) =
     inr (Records ((l1 ++ r :: l2) ++ [newEntity])) /\
   result (AsyncJSONFileBasedDB.getByID collection id)
     (after (AsyncJSONFileBasedDB.create collection newEntity) w) =
     inr (Some r)).
Proof.
  intros Hs Hw Hc H1 Hr.
  pose proof (listed_own collection d _ Hc) as Hl.
  destruct (create_stored collection newEntity w _ _ Hs Hl Hw)
    as [_ Hafter].
  destruct (async_create_stored collection newEntity w _ _ Hs Hl Hw)
    as [_ Hafter'].
  destruct (queries_of_stored collection id _ _ _ Hafter
              (lookup_insert_eq _ _ _)) as (Ha & Hg & _).
  destruct (queries_of_stored collection id _ _ _ Hafter'
              (lookup_insert_eq _ _ _)) as (_ & _ & Ha' & Hg').
  rewrite <- app_assoc in Hg, Hg'. simpl in Hg, Hg'.
  rewrite find_first in Hg, Hg' by assumption.
  repeat split; assumption.
Qed.

Lemma X7_create_duplicate_shadowed_witness :
  (result (SimpleDB.getAll "users")
     (after (SimpleDB.create "users" alias) w_users) =
     inr (Records (([] ++ alice :: [bob]) ++ [alias])) /\
   result (SimpleDB.getByID "users" "a")
     (after (SimpleDB.create "users" alias) w_users) = inr (Some alice)) /\
  (result (AsyncJSONFileBasedDB.getAll "users")
     (after (AsyncJSONFileBasedDB.create "users" alias) w_users) =
     inr (Records (([] ++ alice :: [bob]) ++ [alias])) /\
   result (AsyncJSONFileBasedDB.getByID "users" "a")
     (after (AsyncJSONFileBasedDB.create "users" alias) w_users) =
     inr (Some alice)).
Proof.
  apply (X7_create_duplicate_shadowed (C := tree_codec)
           (L := tree_codec_lossless) "users" "a" alias w_users doc_users
           [] [bob] alice).
  - reflexivity.
  - reflexivity.
  - reflexivity.
  - constructor.
  - reflexivity.
Defined.

(** X8. When the name of the collection does not resolve to a member of
    [Object.prototype] in what was read, two [create] calls in a row
    append their records in call order, also when the two records are
    the same. In both stores. *)
Theorem X8_create_twice {C : JSONCodec} {L : Lossless C}
    (collection : string) (e1 e2 : Entity) (w : World) (v : decoded)
    (old : list Entity) :
  stored w = inr v -> listed collection v = Some old -> wfault w = None ->
  result (SimpleDB.getAll collection)
    (after (SimpleDB.create collection e2)
       (after (SimpleDB.create collection e1) w)) =
    inr (Records (old ++ [e1; e2])) /\
  result (AsyncJSONFileBasedDB.getAll collection)
    (after (AsyncJSONFileBasedDB.create collection e2)
       (after (AsyncJSONFileBasedDB.create collection e1) w)) =
    inr (Records (old ++ [e1; e2])).
Proof.
  intros Hs Hl Hw.
  destruct (create_stored collection e1 w v old Hs Hl Hw) as [_ H1].
  destruct (async_create_stored collection e1 w v old Hs Hl Hw)
    as [_ H1'].
  destruct (wfault_kept collection collection e1 e1 w)
    as (Hk & _ & _ & _ & Hk' & _).
  rewrite Hw in Hk, Hk'.
  pose proof (listed_own collection _ _
                (lookup_insert_eq (spread v) collection (old ++ [e1])))
    as Hl1.
  destruct (create_stored collection e2 _ _ _ H1 Hl1 Hk) as [_ H2].
  destruct (async_create_stored collection e2 _ _ _ H1' Hl1 Hk')
    as [_ H2'].
  destruct (queries_of_stored collection collection _ _ _ H2
              (lookup_insert_eq _ _ _)) as (Ha & _).
  destruct (queries_of_stored collection collection _ _ _ H2'
              (lookup_insert_eq _ _ _)) as (_ & _ & Ha' & _).
  rewrite <- app_assoc in Ha, Ha'.
  split; assumption.
Qed.

Lemma X8_create_twice_witness :
  result (SimpleDB.getAll "users")
    (after (SimpleDB.create "users" carol)
       (after (SimpleDB.create "users" carol) w_posts)) =
    inr (Records ([] ++ [carol; carol])) /\
  result (AsyncJSONFileBasedDB.getAll "users")
    (after (AsyncJSONFileBasedDB.create "users" carol)
       (after (AsyncJSONFileBasedDB.create "users" carol) w_posts)) =
    inr (Records ([] ++ [carol; carol])).
Proof.
  apply (X8_create_twice (C := tree_codec) (L := tree_codec_lossless)
           "users" carol carol w_posts (Doc doc_posts) []).
  - reflexivity.
  - reflexivity.
  - reflexivity.
Defined.

(** ** Update, then read *)

Lemma object_spread_field (r patch : Entity) (k : string) :
  object_spread r patch !! k =
  match patch !! k with
  | Some x => Some x
  | None => r !! k
  end.
Proof.
  unfold object_spread. destruct (patch !! k) as [x|] eqn:Hp.
  - apply lookup_union_Some_l, Hp.
  - apply lookup_union_r, Hp.
Qed.

Lemma object_spread_keeps_id (id : string) (r patch : Entity) :
  has_id id r = true -> patch !! "id" = None ->
  has_id id (object_spread r patch) = true.
Proof.
  intros Hr Hp. apply has_id_field. rewrite object_spread_field, Hp.
  apply has_id_field, Hr.
Qed.

(** X9. [update] merges shallowly: in the record it returns, a field of
    the patch has the value of the patch and every other field the value
    it had. Afterwards [getAll] returns the same records in the same
    places with the merged record in place of the first match, and, for a
    patch without [id], [getByID] returns the merged record. In both
    stores. *)
Theorem X9_update_then_read {C : JSONCodec} {L : Lossless C}
    (collection id : string) (patch : Entity) (w : World) (d : Document)
    (l1 l2 : list Entity) (r : Entity) :
  stored w = inr (Doc d) -> d !! collection = Some (l1 ++ r :: l2) ->
  no_match id l1 -> has_id id r = true -> patch !! "id" = None ->
  wfault w = None ->
  exists updated : Entity,
    (forall k : string,
       updated !! k = match patch !! k with
                      | Some x => Some x
                      | None => r !! k
                      end) /\
    (result (SimpleDB.update collection id patch) w = inr (Some updated) /\
     result (SimpleDB.getAll collection)
       (after (SimpleDB.update collection id patch) w) =
       inr (Records (l1 ++ updated :: l2)) /\
     result (SimpleDB.getByID collection id)
       (after (SimpleDB.update collection id patch) w) =
       inr (Some updated)) /\
    (result (AsyncJSONFileBasedDB.update collection id patch) w =
       inr (Some updated) /\
     result (AsyncJSONFileBasedDB.getAll collection)
       (after (AsyncJSONFileBasedDB.update collection id patch) w) =
       inr (Records (l1 ++ updated :: l2)) /\
     result (AsyncJSONFileBasedDB.getByID collection id)
       (after (AsyncJSONFileBasedDB.update collection id patch) w) =
       inr (Some updated)).
Proof.
  intros Hs Hc H1 Hr Hp Hw. exists (object_spread r patch).
  split; [apply object_spread_field |].
  destruct (update_stored collection id patch w d l1 l2 r Hs Hc H1 Hr Hw)
    as [Hres Hafter].
  destruct (async_update_stored collection id patch w d l1 l2 r
              Hs Hc H1 Hr Hw) as [Hres' Hafter'].
  destruct (queries_of_stored collection id _ _ _ Hafter
              (lookup_insert_eq _ _ _)) as (Ha & Hg & _).
  destruct (queries_of_stored collection id _ _ _ Hafter'
              (lookup_insert_eq _ _ _)) as (_ & _ & Ha' & Hg').
  rewrite find_first in Hg, Hg'
    by (try assumption; apply object_spread_keeps_id; assumption).
  repeat split; assumption.
Qed.

Lemma X9_update_then_read_witness :
  exists updated : Entity,
    (forall k : string,
       updated !! k =
       match ({[ "name" := JStr "Bobby" ]} : Entity) !! k with
       | Some x => Some x
       | None => bob !! k
       end) /\
    (result (SimpleDB.update "users" "b" {[ "name" := JStr "Bobby" ]})
       w_users = inr (Some updated) /\
     result (SimpleDB.getAll "users")
       (after (SimpleDB.update "users" "b" {[ "name" := JStr "Bobby" ]})
          w_users) = inr (Records ([alice] ++ updated :: [])) /\
     result (SimpleDB.getByID "users" "b")
       (after (SimpleDB.update "users" "b" {[ "name" := JStr "Bobby" ]})
          w_users) = inr (Some updated)) /\
    (result (AsyncJSONFileBasedDB.update "users" "b"
               {[ "name" := JStr "Bobby" ]}) w_users = inr (Some updated) /\
     result (AsyncJSONFileBasedDB.getAll "users")
       (after (AsyncJSONFileBasedDB.update "users" "b"
                 {[ "name" := JStr "Bobby" ]}) w_users) =
       inr (Records ([alice] ++ updated :: [])) /\
     result (AsyncJSONFileBasedDB.getByID "users" "b")
       (after (AsyncJSONFileBasedDB.update "users" "b"
                 {[ "name" := JStr "Bobby" ]}) w_users) =
       inr (Some updated)).
Proof.
  apply (X9_update_then_read (C := tree_codec) (L := tree_codec_lossless)
           "users" "b" {[ "name" := JStr "Bobby" ]} w_users doc_users
           [alice] [] bob).
  - reflexivity.
  - reflexivity.
  - repeat constructor.
  - reflexivity.
  - reflexivity.
  - reflexivity.
Defined.

(** X10. [update] with an empty patch still writes: it returns the record
    it found and writes back the very document it read. In both
    stores. *)
Theorem X10_update_empty_patch {C : JSONCodec} (collection id : string)
    (w : World) (d : Document) (l1 l2 : list Entity) (r : Entity) :
  stored w = inr (Doc d) -> d !! collection = Some (l1 ++ r :: l2) ->
  no_match id l1 -> has_id id r = true -> wfault w = None ->
  (result (SimpleDB.update collection id ∅) w = inr (Some r) /\
   accesses (SimpleDB.update collection id ∅) w = [EvRead; EvWrite d]) /\
  (result (AsyncJSONFileBasedDB.update collection id ∅) w = inr (Some r) /\
   accesses (AsyncJSONFileBasedDB.update collection id ∅) w =
     [EvRead; EvRead; EvWrite d]).
Proof.
  intros Hs Hc H1 Hr Hw.
  assert (Hsame : object_spread r ∅ = r).
  { unfold object_spread. apply (left_id_L ∅ (∪)). }
  assert (Hdoc : <[collection := l1 ++ r :: l2]> d = d).
  { apply insert_id, Hc. }
  unfold result, accesses, after.
  rewrite (SimpleDB_update_first collection id w d l1 l2 r Hs Hc H1 Hr).
  rewrite (AsyncDB_update_first collection id w d l1 l2 r Hs Hc H1 Hr).
  rewrite fresh_commit, fresh_commit2, Hsame, Hdoc.
  repeat split; apply commit_ok; exact Hw.
Qed.

Lemma X10_update_empty_patch_witness :
  (result (SimpleDB.update "users" "b" ∅) w_users = inr (Some bob) /\
   accesses (SimpleDB.update "users" "b" ∅) w_users =
     [EvRead; EvWrite doc_users]) /\
  (result (AsyncJSONFileBasedDB.update "users" "b" ∅) w_users =
     inr (Some bob) /\
   accesses (AsyncJSONFileBasedDB.update "users" "b" ∅) w_users =
     [EvRead; EvRead; EvWrite doc_users]).
Proof.
  apply (X10_update_empty_patch (C := tree_codec) "users" "b" w_users
           doc_users [alice] [] bob).
  - reflexivity.
  - reflexivity.
  - repeat constructor.
  - reflexivity.
  - reflexivity.
Defined.

Lemma object_spread_twice (r patch : Entity) :
  object_spread (object_spread r patch) patch = object_spread r patch.
Proof.
  apply map_eq. intros k. rewrite !object_spread_field.
  destruct (patch !! k); reflexivity.
Qed.

(** X11. [update] is idempotent for a patch without [id]: doing it a
    second time returns the same record and leaves the same records
    stored. In both stores. *)
Theorem X11_update_idempotent {C : JSONCodec} {L : Lossless C}
    (collection id : string) (patch : Entity) (w : World) (d : Document)
    (l1 l2 : list Entity) (r : Entity) :
  stored w = inr (Doc d) -> d !! collection = Some (l1 ++ r :: l2) ->
  no_match id l1 -> has_id id r = true -> patch !! "id" = None ->
  wfault w = None ->
  (result (SimpleDB.update collection id patch)
     (after (SimpleDB.update collection id patch) w) =
     result (SimpleDB.update collection id patch) w /\
   result (SimpleDB.getAll collection)
     (after (SimpleDB.update collection id patch)
        (after (SimpleDB.update collection id patch) w)) =
     result (SimpleDB.getAll collection)
       (after (SimpleDB.update collection id patch) w)) /\
  (result (AsyncJSONFileBasedDB.update collection id patch)
     (after (AsyncJSONFileBasedDB.update collection id patch) w) =
     result (AsyncJSONFileBasedDB.update collection id patch) w /\
   result (AsyncJSONFileBasedDB.getAll collection)
     (after (AsyncJSONFileBasedDB.update collection id patch)
        (after (AsyncJSONFileBasedDB.update collection id patch) w)) =
     result (AsyncJSONFileBasedDB.getAll collection)
       (after (AsyncJSONFileBasedDB.update collection id patch) w)).
Proof.
  intros Hs Hc H1 Hr Hp Hw.
  pose proof (object_spread_keeps_id id r patch Hr Hp) as Hu.
  destruct (wfault_kept collection id r patch w)
    as (_ & Hk & _ & _ & _ & Hk' & _).
  rewrite Hw in Hk, Hk'.
  destruct (update_stored collection id patch w d l1 l2 r Hs Hc H1 Hr Hw)
    as [Hres Hafter].
  destruct (async_update_stored collection id patch w d l1 l2 r
              Hs Hc H1 Hr Hw) as [Hres' Hafter'].
  destruct (update_stored collection id patch _ _ l1 l2 _ Hafter
              (lookup_insert_eq _ _ _) H1 Hu Hk) as [Hres2 Hafter2].
  destruct (async_update_stored collection id patch _ _ l1 l2 _ Hafter'
              (lookup_insert_eq _ _ _) H1 Hu Hk') as [Hres2' Hafter2'].
  rewrite object_spread_twice in Hres2, Hafter2, Hres2', Hafter2'.
  rewrite insert_insert_eq in Hafter2, Hafter2'.
  destruct (queries_of_stored collection id _ _ _ Hafter
              (lookup_insert_eq _ _ _)) as (Ha & _).
  destruct (queries_of_stored collection id _ _ _ Hafter2
              (lookup_insert_eq _ _ _)) as (Ha2 & _).
  destruct (queries_of_stored collection id _ _ _ Hafter'
              (lookup_insert_eq _ _ _)) as (_ & _ & Ha' & _).
  destruct (queries_of_stored collection id _ _ _ Hafter2'
              (lookup_insert_eq _ _ _)) as (_ & _ & Ha2' & _).
  repeat split; congruence.
Qed.

Lemma X11_update_idempotent_witness :
  (result (SimpleDB.update "users" "b" {[ "name" := JStr "Bobby" ]})
     (after (SimpleDB.update "users" "b" {[ "name" := JStr "Bobby" ]})
        w_users) =
     result (SimpleDB.update "users" "b" {[ "name" := JStr "Bobby" ]})
       w_users /\
   result (SimpleDB.getAll "users")
     (after (SimpleDB.update "users" "b" {[ "name" := JStr "Bobby" ]})
        (after (SimpleDB.update "users" "b" {[ "name" := JStr "Bobby" ]})
           w_users)) =
     result (SimpleDB.getAll "users")
       (after (SimpleDB.update "users" "b" {[ "name" := JStr "Bobby" ]})
          w_users)) /\
  (result (AsyncJSONFileBasedDB.update "users" "b"
             {[ "name" := JStr "Bobby" ]})
     (after (AsyncJSONFileBasedDB.update "users" "b"
               {[ "name" := JStr "Bobby" ]}) w_users) =
     result (AsyncJSONFileBasedDB.update "users" "b"
               {[ "name" := JStr "Bobby" ]}) w_users /\
   result (AsyncJSONFileBasedDB.getAll "users")
     (after (AsyncJSONFileBasedDB.update "users" "b"
               {[ "name" := JStr "Bobby" ]})
        (after (AsyncJSONFileBasedDB.update "users" "b"
                  {[ "name" := JStr "Bobby" ]}) w_users)) =
     result (AsyncJSONFileBasedDB.getAll "users")
       (after (AsyncJSONFileBasedDB.update "users" "b"
                 {[ "name" := JStr "Bobby" ]}) w_users)).
Proof.
  apply (X11_update_idempotent (C := tree_codec) (L := tree_codec_lossless)
           "users" "b" {[ "name" := JStr "Bobby" ]} w_users doc_users
           [alice] [] bob).
  - reflexivity.
  - reflexivity.
  - repeat constructor.
  - reflexivity.
  - reflexivity.
  - reflexivity.
Defined.

(** ** Update and delete against getByID *)

Lemma find_by_index (id : string) (l : list Entity) :
  Array.find (has_id id) l =
  if Array.findIndex (has_id id) l =? -1 then None
  else Array.get l (Array.findIndex (has_id id) l).
Proof.
  destruct (Z.eqb_spec (Array.findIndex (has_id id) l) (-1)) as [Hi | Hi].
  - apply find_none, findIndex_none, Hi.
  - destruct (first_match_split id l Hi) as (l1 & r & l2 & -> & H1 & Hr).
    rewrite find_first, findIndex_first by assumption.
    symmetry. apply get_middle.
Qed.

(** X12. [update] and [delete] act on the record [getByID] returns: when
    the write does not fail, [update] returns that record merged with the
    patch, and not-found exactly when [getByID] does; [delete] returns
    [true] exactly when [getByID] returns a record; and each throws what
    [getByID] throws. In both stores. *)
Theorem X12_update_delete_follow_getByID {C : JSONCodec}
    (collection id : string) (patch : Entity) (w : World) :
  wfault w = None ->
  (result (SimpleDB.update collection id patch) w =
     match result (SimpleDB.getByID collection id) w with
     | inl e => inl e
     | inr (Some r) => inr (Some (object_spread r patch))
     | inr None => inr None
     end /\
   result (SimpleDB.delete collection id) w =
     match result (SimpleDB.getByID collection id) w with
     | inl e => inl e
     | inr (Some _) => inr true
     | inr None => inr false
     end) /\
  (result (AsyncJSONFileBasedDB.update collection id patch) w =
     match result (AsyncJSONFileBasedDB.getByID collection id) w with
     | inl e => inl e
     | inr (Some r) => inr (Some (object_spread r patch))
     | inr None => inr None
     end /\
   result (AsyncJSONFileBasedDB.delete collection id) w =
     match result (AsyncJSONFileBasedDB.getByID collection id) w with
     | inl e => inl e
     | inr (Some _) => inr true
     | inr None => inr false
     end).
Proof.
  intros Hw. unfold result.
  rewrite SimpleDB_update_run, SimpleDB_delete_run, SimpleDB_getByID_run,
    AsyncDB_update_run, AsyncDB_delete_run, AsyncDB_getByID_run.
  destruct (stored w) as [e|v]; [repeat split |].
  destruct (target collection v) as [l|name|]; [|repeat split ..].
  cbv zeta. simpl fst. rewrite find_by_index.
  destruct (Array.findIndex (has_id id) l =? -1) eqn:Hi; [repeat split |].
  apply Z.eqb_neq in Hi.
  destruct (first_match_split id l Hi) as (l1 & r & l2 & -> & H1 & Hr).
  rewrite findIndex_first, get_middle by assumption. simpl.
  repeat split; apply commit_ok; exact Hw.
Qed.

Lemma X12_update_delete_follow_getByID_witness :
  (result (SimpleDB.update "users" "b" {[ "name" := JStr "Bobby" ]}) w_users
     =
     match result (SimpleDB.getByID "users" "b") w_users with
     | inl e => inl e
     | inr (Some r) =>
         inr (Some (object_spread r {[ "name" := JStr "Bobby" ]}))
     | inr None => inr None
     end /\
   result (SimpleDB.delete "users" "b") w_users =
     match result (SimpleDB.getByID "users" "b") w_users with
     | inl e => inl e
     | inr (Some _) => inr true
     | inr None => inr false
     end) /\
  (result (AsyncJSONFileBasedDB.update "users" "b"
             {[ "name" := JStr "Bobby" ]}) w_users =
     match result (AsyncJSONFileBasedDB.getByID "users" "b") w_users with
     | inl e => inl e
     | inr (Some r) =>
         inr (Some (object_spread r {[ "name" := JStr "Bobby" ]}))
     | inr None => inr None
     end /\
   result (AsyncJSONFileBasedDB.delete "users" "b") w_users =
     match result (AsyncJSONFileBasedDB.getByID "users" "b") w_users with
     | inl e => inl e
     | inr (Some _) => inr true
     | inr None => inr false
     end).
Proof.
  apply (X12_update_delete_follow_getByID (C := tree_codec) "users" "b"
           {[ "name" := JStr "Bobby" ]} w_users).
  reflexivity.
Defined.


(** ** Compositions with delete *)

(** X13. When the name of the collection does not resolve to a member of
    [Object.prototype] in what was read, [create] followed by [delete] of
    the id of the new record, when no older record carries that id,
    deletes that record: [delete] returns [true] and [getAll] returns the
    records there were before the two calls ([old]; none when the
    collection, or the file, was missing). In both stores. *)
Theorem X13_create_then_delete {C : JSONCodec} {L : Lossless C}
    (collection id : string) (newEntity : Entity) (w : World)
    (v : decoded) (old : list Entity) :
  stored w = inr v -> listed collection v = Some old -> wfault w = None ->
  has_id id newEntity = true -> no_match id old ->
  (result (SimpleDB.delete collection id)
     (after (SimpleDB.create collection newEntity) w) = inr true /\
   result (SimpleDB.getAll collection)
     (after (SimpleDB.delete collection id)
        (after (SimpleDB.create collection newEntity) w)) =
     inr (Records old)) /\
  (result (AsyncJSONFileBasedDB.delete collection id)
     (after (AsyncJSONFileBasedDB.create collection newEntity) w) =
     inr true /\
   result (AsyncJSONFileBasedDB.getAll collection)
     (after (AsyncJSONFileBasedDB.delete collection id)
        (after (AsyncJSONFileBasedDB.create collection newEntity) w)) =
     inr (Records old)).
Proof.
  intros Hs Hl Hw He Hold.
  destruct (wfault_kept collection id newEntity newEntity w)
    as (Hk & _ & _ & _ & Hk' & _).
  rewrite Hw in Hk, Hk'.
  destruct (create_stored collection newEntity w v old Hs Hl Hw)
    as [_ H1].
  destruct (async_create_stored collection newEntity w v old Hs Hl Hw)
    as [_ H1'].
  destruct (delete_stored collection id _ _ _ [] newEntity H1
              (lookup_insert_eq _ _ _) Hold He Hk) as [Hd H2].
  destruct (async_delete_stored collection id _ _ _ [] newEntity H1'
              (lookup_insert_eq _ _ _) Hold He Hk') as [Hd' H2'].
  destruct (queries_of_stored collection id _ _ _ H2
              (lookup_insert_eq _ _ _)) as (Ha & _).
  destruct (queries_of_stored collection id _ _ _ H2'
              (lookup_insert_eq _ _ _)) as (_ & _ & Ha' & _).
  rewrite app_nil_r in Ha, Ha'.
  repeat split; assumption.
Qed.

Lemma X13_create_then_delete_witness :
  (result (SimpleDB.delete "users" "c")
     (after (SimpleDB.create "users" carol) w_users) = inr true /\
   result (SimpleDB.getAll "users")
     (after (SimpleDB.delete "users" "c")
        (after (SimpleDB.create "users" carol) w_users)) =
     inr (Records [alice; bob])) /\
  (result (AsyncJSONFileBasedDB.delete "users" "c")
     (after (AsyncJSONFileBasedDB.create "users" carol) w_users) =
     inr true /\
   result (AsyncJSONFileBasedDB.getAll "users")
     (after (AsyncJSONFileBasedDB.delete "users" "c")
        (after (AsyncJSONFileBasedDB.create "users" carol) w_users)) =
     inr (Records [alice; bob])).
Proof.
  apply (X13_create_then_delete (C := tree_codec)
           (L := tree_codec_lossless) "users" "c" carol w_users
           (Doc doc_users) [alice; bob]).
  - reflexivity.
  - reflexivity.
  - reflexivity.
  - reflexivity.
  - repeat constructor.
Defined.

(** X14. After [deleteCollection] on a stored document the key of the
    collection is gone. For a name that [Object.prototype] does not
    define, [getAll] then returns the empty array, [getByID] and [update]
    not-found and [delete] [false], for every id; for a name it defines
    ([constructor], [toString], ...), [getAll] returns the inherited
    member and the other three throw a [TypeError]. Either way a second
    [deleteCollection] returns [true] and writes the same document
    again. *)
Theorem X14_deleteCollection_then {C : JSONCodec} {L : Lossless C}
    (collection id : string) (patch : Entity) (w : World) (d : Document) :
  stored w = inr (Doc d) -> wfault w = None ->
  let w' := after (SimpleDB.deleteCollection collection) w in
  result (SimpleDB.getAll collection) w' =
    inr (if inherited collection then Member collection else Records []) /\
  result (SimpleDB.getByID collection id) w' =
    (if inherited collection then inl TypeError else inr None) /\
  result (SimpleDB.update collection id patch) w' =
    (if inherited collection then inl TypeError else inr None) /\
  result (SimpleDB.delete collection id) w' =
    (if inherited collection then inl TypeError else inr false) /\
  result (SimpleDB.deleteCollection collection) w' = inr true /\
  written (accesses (SimpleDB.deleteCollection collection) w') =
    written (accesses (SimpleDB.deleteCollection collection) w).
Proof.
  intros Hs Hw w'.
  destruct (deleteCollection_stored collection w d Hs Hw) as [_ H1].
  fold w' in H1.
  assert (Hk : wfault w' = None).
  { destruct (wfault_kept collection id patch patch w)
      as (_ & _ & _ & Hk & _). unfold w'. congruence. }
  destruct (deleteCollection_stored collection w' _ H1 Hk) as [Hr2 _].
  rewrite !SimpleDB_deleteCollection_accesses, H1, Hs.
  unfold result in *.
  rewrite SimpleDB_getAll_run, SimpleDB_getByID_run, SimpleDB_update_run,
    SimpleDB_delete_run, H1.
  simpl. unfold get_property. rewrite lookup_delete_eq.
  rewrite delete_delete_eq.
  destruct (inherited collection); repeat split; exact Hr2.
Qed.

Lemma X14_deleteCollection_then_witness :
  let w' := after (SimpleDB.deleteCollection "users") w_users in
  result (SimpleDB.getAll "users") w' =
    inr (if inherited "users" then Member "users" else Records []) /\
  result (SimpleDB.getByID "users" "a") w' =
    (if inherited "users" then inl TypeError else inr None) /\
  result (SimpleDB.update "users" "a" ∅) w' =
    (if inherited "users" then inl TypeError else inr None) /\
  result (SimpleDB.delete "users" "a") w' =
    (if inherited "users" then inl TypeError else inr false) /\
  result (SimpleDB.deleteCollection "users") w' = inr true /\
  written (accesses (SimpleDB.deleteCollection "users") w') =
    written (accesses (SimpleDB.deleteCollection "users") w_users).
Proof.
  apply (X14_deleteCollection_then (C := tree_codec)
           (L := tree_codec_lossless) "users" "a" ∅ w_users doc_users).
  - reflexivity.
  - reflexivity.
Defined.

(** ** Stores that share a file *)

Section Sharing.
Context {C : JSONCodec}.
Variables (collection name id : string).

Lemma reads_alike_stored (w1 w2 : World) :
  stored w1 = stored w2 -> reads_alike name id w1 w2.
Proof.
  intros H. unfold reads_alike, result.
  rewrite !SimpleDB_getAll_run, !SimpleDB_getByID_run, H.
  split; reflexivity.
Qed.

Lemma reads_alike_target (w1 w2 : World) (v1 v2 : decoded) :
  stored w1 = inr v1 -> stored w2 = inr v2 ->
  target name v1 = target name v2 -> reads_alike name id w1 w2.
Proof.
  intros H1 H2 Ht. unfold reads_alike, result.
  rewrite !SimpleDB_getAll_run, !SimpleDB_getByID_run, H1, H2, Ht.
  split; reflexivity.
Qed.

(** A document in place of what was read answers alike under [name] when
    it has the same records there, and, where a falsy value was read,
    [name] is not defined by [Object.prototype]. *)
Lemma target_kept (v : decoded) (data : Document) :
  data !! name = spread v !! name ->
  inherited name = false \/ (exists d, v = Doc d) ->
  target name (Doc data) = target name v.
Proof.
  intros Hd Hok. destruct v as [f|d]; simpl in *.
  - unfold get_property. rewrite Hd, lookup_empty.
    destruct Hok as [-> | [d Hd']]; [reflexivity | discriminate].
  - unfold get_property. rewrite Hd. reflexivity.
Qed.

Context {L : Lossless C}.

Lemma commit_reads_alike {A : Type} (data : Document) (a : A)
    (w' w : World) (v : decoded) :
  stored w = inr v -> stored w' = stored w ->
  data !! name = spread v !! name ->
  inherited name = false \/ (exists d, v = Doc d) ->
  reads_alike name id (snd (commit data a w')) w.
Proof.
  intros Hs Hw' Hd Hok.
  pose proof (stored_commit_cases data a w') as Hc.
  destruct (wfault w').
  - apply reads_alike_stored. congruence.
  - apply (reads_alike_target _ _ (Doc data) v Hc Hs).
    apply target_kept; assumption.
Qed.

Hypothesis Hname : name <> collection.
Variable w : World.
Hypothesis Hok : inherited name = false \/ has_document w = true.

Lemma document_read (v : decoded) :
  stored w = inr v -> inherited name = false \/ (exists d, v = Doc d).
Proof.
  intros Hs. destruct Hok as [H | H]; [left; exact H | right].
  unfold has_document in H. rewrite Hs in H.
  destruct v as [f|d]; [discriminate | exists d; reflexivity].
Qed.

Lemma insert_elsewhere (l : list Entity) (d : Document) :
  <[collection := l]> d !! name = d !! name.
Proof. apply lookup_insert_ne. congruence. Qed.

Lemma create_reads_alike (newEntity : Entity) :
  reads_alike name id (after (SimpleDB.create collection newEntity) w) w /\
  reads_alike name id
    (after (AsyncJSONFileBasedDB.create collection newEntity) w) w.
Proof.
  unfold after. rewrite SimpleDB_create_run, AsyncDB_create_run.
  destruct (stored w) as [e|v] eqn:Hs;
    [split; apply reads_alike_stored, stored_record |].
  destruct (appended (target collection v) newEntity) as [e|items].
  - split; simpl snd; apply reads_alike_stored; rewrite ?stored_record;
      reflexivity.
  - split; apply (commit_reads_alike _ _ _ w v Hs);
      rewrite ?stored_record; try reflexivity;
      first [apply insert_elsewhere | apply document_read, Hs].
Qed.

Lemma update_reads_alike (id' : string) (patch : Entity) :
  reads_alike name id (after (SimpleDB.update collection id' patch) w) w /\
  reads_alike name id
    (after (AsyncJSONFileBasedDB.update collection id' patch) w) w.
Proof.
  unfold after. rewrite SimpleDB_update_run, AsyncDB_update_run.
  destruct (stored w) as [e|v] eqn:Hs;
    [split; apply reads_alike_stored, stored_record |].
  destruct (target collection v) as [l|member|];
    [|split; apply reads_alike_stored, stored_record ..].
  cbv zeta. destruct (Array.findIndex (has_id id') l =? -1);
    [split; apply reads_alike_stored, stored_record |].
  split; apply (commit_reads_alike _ _ _ w v Hs);
    rewrite ?stored_record; try reflexivity;
    first [apply insert_elsewhere | apply document_read, Hs].
Qed.

Lemma delete_reads_alike (id' : string) :
  reads_alike name id (after (SimpleDB.delete collection id') w) w /\
  reads_alike name id
    (after (AsyncJSONFileBasedDB.delete collection id') w) w.
Proof.
  unfold after. rewrite SimpleDB_delete_run, AsyncDB_delete_run.
  destruct (stored w) as [e|v] eqn:Hs;
    [split; apply reads_alike_stored, stored_record |].
  destruct (target collection v) as [l|member|];
    [|split; apply reads_alike_stored, stored_record ..].
  cbv zeta. destruct (Array.findIndex (has_id id') l =? -1);
    [split; apply reads_alike_stored, stored_record |].
  split; apply (commit_reads_alike _ _ _ w v Hs);
    rewrite ?stored_record; try reflexivity;
    first [apply insert_elsewhere | apply document_read, Hs].
Qed.

Lemma deleteCollection_reads_alike :
  reads_alike name id (after (SimpleDB.deleteCollection collection) w) w.
Proof.
  unfold after. rewrite SimpleDB_deleteCollection_run.
  destruct (stored w) as [e|[f|d]] eqn:Hs;
    try (apply reads_alike_stored, stored_record).
  apply (commit_reads_alike _ _ _ w (Doc d) Hs);
    [apply stored_record | | right; exists d; reflexivity].
  apply lookup_delete_ne. congruence.
Qed.

End Sharing.

(** X15. A store leaves the other collections of its file alone: after
    [create], [update], [delete] or [deleteCollection] on one collection,
    whether the call succeeded, found nothing or failed, [getAll] and
    [getByID] on another collection answer as they did before. This holds
    for every other name when a document was stored, and for every other
    name [Object.prototype] does not define when none was (see
    [first_document_shows_members]). In both stores. *)
Theorem X15_other_collections_read_alike {C : JSONCodec} {L : Lossless C}
    (collection name id id' : string) (newEntity patch : Entity)
    (w : World) :
  name <> collection ->
  inherited name = false \/ has_document w = true ->
  (reads_alike name id (after (SimpleDB.create collection newEntity) w) w /\
   reads_alike name id (after (SimpleDB.update collection id' patch) w) w /\
   reads_alike name id (after (SimpleDB.delete collection id') w) w /\
   reads_alike name id (after (SimpleDB.deleteCollection collection) w) w)
  /\
  (reads_alike name id
     (after (AsyncJSONFileBasedDB.create collection newEntity) w) w /\
   reads_alike name id
     (after (AsyncJSONFileBasedDB.update collection id' patch) w) w /\
   reads_alike name id
     (after (AsyncJSONFileBasedDB.delete collection id') w) w).
Proof.
  intros Hn Hok.
  destruct (create_reads_alike collection name id Hn w Hok newEntity).
  destruct (update_reads_alike collection name id Hn w Hok id' patch).
  destruct (delete_reads_alike collection name id Hn w Hok id').
  pose proof (deleteCollection_reads_alike collection name id Hn w).
  repeat match goal with |- _ /\ _ => split end; assumption.
Qed.

Lemma X15_other_collections_read_alike_witness :
  (reads_alike "posts" "p" (after (SimpleDB.create "users" carol) w_users)
     w_users /\
   reads_alike "posts" "p"
     (after (SimpleDB.update "users" "a" {[ "name" := JStr "Al" ]}) w_users)
     w_users /\
   reads_alike "posts" "p" (after (SimpleDB.delete "users" "a") w_users)
     w_users /\
   reads_alike "posts" "p" (after (SimpleDB.deleteCollection "users") w_users)
     w_users) /\
  (reads_alike "posts" "p"
     (after (AsyncJSONFileBasedDB.create "users" carol) w_users) w_users /\
   reads_alike "posts" "p"
     (after (AsyncJSONFileBasedDB.update "users" "a"
               {[ "name" := JStr "Al" ]}) w_users) w_users /\
   reads_alike "posts" "p"
     (after (AsyncJSONFileBasedDB.delete "users" "a") w_users) w_users).
Proof.
  apply (X15_other_collections_read_alike (C := tree_codec)
           (L := tree_codec_lossless) "users" "posts" "p" "a" carol
           {[ "name" := JStr "Al" ]} w_users).
  - discriminate.
  - left. reflexivity.
Defined.

(** Why X15 asks for a stored document or a name [Object.prototype] does
    not define: on a missing file [getAll] answers the empty array under
    any name, but once a first [create] has made the file a document,
    [constructor] resolves to the inherited member. *)
Lemma first_document_shows_members :
  result (SimpleDB.getAll "constructor") w_absent = inr (Records []) /\
  result (SimpleDB.getAll "constructor")
    (after (SimpleDB.create "users" carol) w_absent) =
    inr (Member "constructor").
Proof. split; reflexivity. Qed.

(** ** Writing without reading *)

Lemma queries_of_document {C : JSONCodec} (name id : string) (w : World)
    (d : Document) :
  stored w = inr (Doc d) -> d !! name = None ->
  result (SimpleDB.getAll name) w =
    inr (if inherited name then Member name else Records []) /\
  result (SimpleDB.getByID name id) w =
    (if inherited name then inl TypeError else inr None) /\
  result (AsyncJSONFileBasedDB.getAll name) w =
    inr (if inherited name then Member name else Records []) /\
  result (AsyncJSONFileBasedDB.getByID name id) w =
    (if inherited name then inl TypeError else inr None).
Proof.
  intros Hs Hd. unfold result.
  rewrite SimpleDB_getAll_run, SimpleDB_getByID_run, AsyncDB_getAll_run,
    AsyncDB_getByID_run, Hs.
  simpl. unfold get_property. rewrite Hd.
  destruct (inherited name); repeat split.
Qed.

(** X16. [initializeDB] does not read: it writes the empty document over
    whatever the path held, other collections and unreadable content
    included. When the write succeeds, a collection whose name
    [Object.prototype] does not define then reads as empty ([getAll] the
    empty array, [getByID] not-found); under a name it defines, [getAll]
    returns the inherited member and [getByID] throws a [TypeError].
    [deleteCollection] returns [true], a document being there. *)
Theorem X16_initializeDB_resets {C : JSONCodec} {L : Lossless C}
    (name id : string) (w : World) :
  wfault w = None ->
  let w' := after AsyncJSONFileBasedDB.initializeDB w in
  accesses AsyncJSONFileBasedDB.initializeDB w = [EvWrite ∅] /\
  result AsyncJSONFileBasedDB.initializeDB w = inr tt /\
  result (AsyncJSONFileBasedDB.getAll name) w' =
    inr (if inherited name then Member name else Records []) /\
  result (AsyncJSONFileBasedDB.getByID name id) w' =
    (if inherited name then inl TypeError else inr None) /\
  result (SimpleDB.deleteCollection name) w' = inr true.
Proof.
  intros Hw w'.
  assert (Hrun : AsyncJSONFileBasedDB.initializeDB w = commit ∅ tt w).
  { apply write_after. }
  assert (Hs : stored w' = inr (Doc ∅)).
  { unfold w', after. rewrite Hrun. apply stored_commit, Hw. }
  assert (Hk : wfault w' = None).
  { unfold w', after. rewrite Hrun, commit_wfault_same. exact Hw. }
  split.
  { apply accesses_intro. unfold after. rewrite Hrun. apply commit_trace. }
  split.
  { unfold result. rewrite Hrun. apply commit_ok, Hw. }
  destruct (queries_of_document name id w' ∅ Hs (lookup_empty _))
    as (_ & _ & Ha & Hg).
  split; [exact Ha |]. split; [exact Hg |].
  apply (deleteCollection_stored name w' ∅ Hs Hk).
Qed.

Lemma X16_initializeDB_resets_witness :
  let w' := after AsyncJSONFileBasedDB.initializeDB w_garbled in
  accesses AsyncJSONFileBasedDB.initializeDB w_garbled = [EvWrite ∅] /\
  result AsyncJSONFileBasedDB.initializeDB w_garbled = inr tt /\
  result (AsyncJSONFileBasedDB.getAll "constructor") w' =
    inr (if inherited "constructor" then Member "constructor"
         else Records []) /\
  result (AsyncJSONFileBasedDB.getByID "constructor" "a") w' =
    (if inherited "constructor" then inl TypeError else inr None) /\
  result (SimpleDB.deleteCollection "constructor") w' = inr true.
Proof.
  apply (X16_initializeDB_resets (C := tree_codec)
           (L := tree_codec_lossless) "constructor" "a" w_garbled).
  reflexivity.
Defined.

(** X17. [deleteEntities] does not read either: it writes its argument
    without the key of the collection over whatever the path held. When
    the write succeeds, [getAll] on the collection then returns the empty
    array (the inherited member, when [Object.prototype] defines the
    name), and [getAll] on any other name returns what the argument has
    under it, not what the file had. *)
Theorem X17_deleteEntities_overwrites {C : JSONCodec} {L : Lossless C}
    (collection name : string) (entities : Document) (w : World) :
  wfault w = None -> name <> collection ->
  let w' := after (SimpleDB.deleteEntities collection entities) w in
  accesses (SimpleDB.deleteEntities collection entities) w =
    [EvWrite (base.delete collection entities)] /\
  result (SimpleDB.deleteEntities collection entities) w = inr true /\
  result (SimpleDB.getAll collection) w' =
    inr (if inherited collection then Member collection else Records []) /\
  result (SimpleDB.getAll name) w' =
    inr (or_empty (get_property entities name)).
Proof.
  intros Hw Hn w'.
  assert (Hrun : SimpleDB.deleteEntities collection entities w =
                 commit (base.delete collection entities) true w).
  { unfold SimpleDB.deleteEntities. apply write_then. }
  assert (Hs : stored w' = inr (Doc (base.delete collection entities))).
  { unfold w', after. rewrite Hrun. apply stored_commit, Hw. }
  split.
  { apply accesses_intro. unfold after. rewrite Hrun. apply commit_trace. }
  split.
  { unfold result. rewrite Hrun. apply commit_ok, Hw. }
  destruct (queries_of_document collection name w' _ Hs
              (lookup_delete_eq _ _)) as (Ha & _).
  split; [exact Ha |].
  unfold result. rewrite SimpleDB_getAll_run, Hs. simpl.
  unfold get_property. rewrite lookup_delete_ne by congruence.
  reflexivity.
Qed.

Lemma X17_deleteEntities_overwrites_witness :
  let w' := after (SimpleDB.deleteEntities "users" doc_users) w_posts in
  accesses (SimpleDB.deleteEntities "users" doc_users) w_posts =
    [EvWrite (base.delete "users" doc_users)] /\
  result (SimpleDB.deleteEntities "users" doc_users) w_posts = inr true /\
  result (SimpleDB.getAll "users") w' =
    inr (if inherited "users" then Member "users" else Records []) /\
  result (SimpleDB.getAll "posts") w' =
    inr (or_empty (get_property doc_users "posts")).
Proof.
  apply (X17_deleteEntities_overwrites (C := tree_codec)
           (L := tree_codec_lossless) "users" "posts" doc_users w_posts).
  - reflexivity.
  - discriminate.
Defined.

(** ** Failures *)

Section Failing.
Context {C : JSONCodec}.
Variable collection : string.

Lemma target_member (v : decoded) (name : string) :
  target collection v = Member name -> name = collection.
Proof.
  destruct v as [f|d]; simpl; [discriminate |]. unfold get_property.
  destruct (d !! collection); [discriminate |].
  destruct (inherited collection); [|discriminate].
  intros [= <-]. reflexivity.
Qed.

Lemma appended_throws (v : decoded) (x : Entity) (e : exn) :
  appended (target collection v) x = inl e ->
  e = TypeError /\ target collection v = Member collection.
Proof.
  destruct (target collection v) as [l|name|] eqn:Ht; simpl;
    try discriminate.
  intros [= <-]. rewrite (target_member v name Ht). split; reflexivity.
Qed.

End Failing.

(** The accesses of a run that stopped after its reads, or went through
    [commit]. *)
Ltac settle_accesses :=
  rewrite ?fresh_read, ?fresh_read2, ?fresh_commit, ?fresh_commit2,
    ?commit_trace, ?drop_app_length;
  reflexivity.

(** The three ways a run can end in an error: the read threw [e0]; the
    collection name resolved to a member; the write failed. *)
Ltac read_threw :=
  simpl fst; simpl snd; intros [= <-]; left; split; [reflexivity | settle_accesses].

Ltac member_found v Ht :=
  simpl fst; simpl snd; intros [= <-]; right; left; split; [reflexivity |];
  split; [exists v; split; [reflexivity | exact Ht] | settle_accesses].

Ltac write_failed data :=
  let He := fresh "He" in
  let Hw := fresh "Hw" in
  let c0 := fresh "c0" in
  intros He; rewrite commit_result in He; simpl in He;
  match type of He with
  | context [wfault ?w] =>
      destruct (wfault w) as [c0|] eqn:Hw;
      [injection He as <- | discriminate He];
      right; right; exists c0, data;
      split; [first [exact Hw | reflexivity] |];
      split; [reflexivity | settle_accesses]
  end.

Section FailingRuns.
Context {C : JSONCodec}.
Variable collection : string.

Lemma create_fails_cleanly (newEntity : Entity) (w : World) :
  fails_cleanly collection (SimpleDB.create collection newEntity) w /\
  fails_cleanly collection
    (AsyncJSONFileBasedDB.create collection newEntity) w.
Proof.
  split; unfold fails_cleanly, result, accesses, after; intros e;
    rewrite ?SimpleDB_create_run, ?AsyncDB_create_run;
    (destruct (stored w) as [e0|v] eqn:Hs; [read_threw |]);
    (destruct (appended (target collection v) newEntity) as [e1|items]
       eqn:Ha;
     [destruct (appended_throws collection v _ _ Ha) as [-> Ht];
      member_found v Ht
     | write_failed (<[collection := items]> (spread v))]).
Qed.

Lemma update_fails_cleanly (id : string) (patch : Entity) (w : World) :
  fails_cleanly collection (SimpleDB.update collection id patch) w /\
  fails_cleanly collection
    (AsyncJSONFileBasedDB.update collection id patch) w.
Proof.
  split; unfold fails_cleanly, result, accesses, after; intros e;
    rewrite ?SimpleDB_update_run, ?AsyncDB_update_run;
    (destruct (stored w) as [e0|v] eqn:Hs; [read_threw |]);
    (destruct (target collection v) as [l|name|] eqn:Ht;
     [| pose proof (target_member collection v name Ht); subst name;
        member_found v Ht
      | simpl; intros H; discriminate H]);
    cbv zeta;
    (destruct (Array.findIndex (has_id id) l =? -1);
     [simpl; intros H; discriminate H |]);
    write_failed
      (<[collection :=
           Array.set l (Array.findIndex (has_id id) l)
             (object_spread
                (default ∅ (Array.get l (Array.findIndex (has_id id) l)))
                patch)]> (spread v)).
Qed.

Lemma delete_fails_cleanly (id : string) (w : World) :
  fails_cleanly collection (SimpleDB.delete collection id) w /\
  fails_cleanly collection (AsyncJSONFileBasedDB.delete collection id) w.
Proof.
  split; unfold fails_cleanly, result, accesses, after; intros e;
    rewrite ?SimpleDB_delete_run, ?AsyncDB_delete_run;
    (destruct (stored w) as [e0|v] eqn:Hs; [read_threw |]);
    (destruct (target collection v) as [l|name|] eqn:Ht;
     [| pose proof (target_member collection v name Ht); subst name;
        member_found v Ht
      | simpl; intros H; discriminate H]);
    cbv zeta;
    (destruct (Array.findIndex (has_id id) l =? -1);
     [simpl; intros H; discriminate H |]);
    write_failed
      (<[collection :=
           Array.splice (Array.findIndex (has_id id) l) 1 l]> (spread v)).
Qed.

Lemma deleteCollection_fails_cleanly (w : World) :
  fails_cleanly collection (SimpleDB.deleteCollection collection) w.
Proof.
  unfold fails_cleanly, result, accesses, after; intros e.
  rewrite SimpleDB_deleteCollection_run.
  destruct (stored w) as [e0|[f|d]] eqn:Hs;
    [read_threw | simpl; intros H; discriminate H |].
  write_failed (base.delete collection d).
Qed.

Lemma blind_writes_fail_cleanly (entities : Document) (w : World) :
  fails_cleanly collection (SimpleDB.deleteEntities collection entities) w /\
  fails_cleanly collection AsyncJSONFileBasedDB.initializeDB w.
Proof.
  assert (Hinit : AsyncJSONFileBasedDB.initializeDB w = commit ∅ tt w).
  { apply write_after. }
  assert (Hdel : SimpleDB.deleteEntities collection entities w =
                 commit (base.delete collection entities) true w).
  { unfold SimpleDB.deleteEntities. apply write_then. }
  split; unfold fails_cleanly, result, accesses, after; intros e;
    rewrite ?Hinit, ?Hdel.
  - write_failed (base.delete collection entities).
  - write_failed (∅ : Document).
Qed.

End FailingRuns.

(** X18. When a mutating operation of either store throws, it throws the
    error of its read, having written nothing; or a [TypeError], the name
    of the collection resolving to a member of [Object.prototype], having
    written nothing; or the error of the one write it made. *)
Theorem X18_failure_causes {C : JSONCodec} (collection id : string)
    (newEntity patch : Entity) (entities : Document) (w : World) :
  (fails_cleanly collection (SimpleDB.create collection newEntity) w /\
   fails_cleanly collection (SimpleDB.update collection id patch) w /\
   fails_cleanly collection (SimpleDB.delete collection id) w /\
   fails_cleanly collection (SimpleDB.deleteCollection collection) w /\
   fails_cleanly collection
     (SimpleDB.deleteEntities collection entities) w) /\
  (fails_cleanly collection AsyncJSONFileBasedDB.initializeDB w /\
   fails_cleanly collection
     (AsyncJSONFileBasedDB.create collection newEntity) w /\
   fails_cleanly collection
     (AsyncJSONFileBasedDB.update collection id patch) w /\
   fails_cleanly collection (AsyncJSONFileBasedDB.delete collection id) w).
Proof.
  destruct (create_fails_cleanly collection newEntity w).
  destruct (update_fails_cleanly collection id patch w).
  destruct (delete_fails_cleanly collection id w).
  pose proof (deleteCollection_fails_cleanly collection w).
  destruct (blind_writes_fail_cleanly collection entities w).
  repeat match goal with |- _ /\ _ => split end; assumption.
Qed.

Lemma X18_failure_causes_witness :
  (stored w_readonly = inl (ErrnoException "EROFS") /\
   written (accesses (SimpleDB.create "users" carol) w_readonly) = []) \/
  (ErrnoException "EROFS" = TypeError /\
   (exists v : decoded,
      stored w_readonly = inr v /\ target "users" v = Member "users") /\
   written (accesses (SimpleDB.create "users" carol) w_readonly) = []) \/
  (exists (c : string) (data : Document),
     wfault w_readonly = Some c /\
     ErrnoException "EROFS" = ErrnoException c /\
     written (accesses (SimpleDB.create "users" carol) w_readonly) = [data]).
Proof.
  apply (proj1 (proj1 (X18_failure_causes (C := tree_codec) "users" "a"
                         carol ∅ doc_users w_readonly))
           (ErrnoException "EROFS")).
  reflexivity.
Defined.

(** ** Nothing to find *)

Section NotFound.
Context {C : JSONCodec}.
Variables (collection id : string).

Lemma not_found_runs (patch : Entity) (w : World) (v : decoded)
    (l : list Entity) :
  stored w = inr v -> listed collection v = Some l -> no_match id l ->
  (SimpleDB.getByID collection id w = (inr None, record EvRead w) /\
   SimpleDB.update collection id patch w = (inr None, record EvRead w) /\
   SimpleDB.delete collection id w = (inr false, record EvRead w)) /\
  (AsyncJSONFileBasedDB.getByID collection id w =
     (inr None, record EvRead w) /\
   AsyncJSONFileBasedDB.update collection id patch w =
     (inr None, record EvRead w) /\
   AsyncJSONFileBasedDB.delete collection id w =
     (inr false, record EvRead w)).
Proof.
  intros Hs Hl Hno.
  rewrite SimpleDB_getByID_run, SimpleDB_update_run, SimpleDB_delete_run,
    AsyncDB_getByID_run, AsyncDB_update_run, AsyncDB_delete_run, Hs.
  unfold listed in Hl.
  destruct (target collection v) as [l'|name|]; [|discriminate |];
    injection Hl as <-; [|repeat split].
  cbv zeta. rewrite (find_none id l' Hno).
  apply findIndex_none in Hno. rewrite Hno. repeat split.
Qed.

End NotFound.

(** X19. When the name of the collection does not resolve to a member of
    [Object.prototype] in what was read and no record of the collection
    carries the id (the file, the collection or the record is missing, or
    the collection is empty), [getByID] and [update] return not-found and
    [delete] returns [false]; the call reads once, writes nothing and
    succeeds even if the path cannot be written. In both stores. *)
Theorem X19_nothing_to_find {C : JSONCodec} (collection id : string)
    (patch : Entity) (w : World) (v : decoded) (l : list Entity) :
  stored w = inr v -> listed collection v = Some l -> no_match id l ->
  (result (SimpleDB.getByID collection id) w = inr None /\
   result (SimpleDB.update collection id patch) w = inr None /\
   result (SimpleDB.delete collection id) w = inr false /\
   read_only (SimpleDB.update collection id patch) w /\
   read_only (SimpleDB.delete collection id) w) /\
  (result (AsyncJSONFileBasedDB.getByID collection id) w = inr None /\
   result (AsyncJSONFileBasedDB.update collection id patch) w = inr None /\
   result (AsyncJSONFileBasedDB.delete collection id) w = inr false /\
   read_only (AsyncJSONFileBasedDB.update collection id patch) w /\
   read_only (AsyncJSONFileBasedDB.delete collection id) w).
Proof.
  intros Hs Hl Hno.
  destruct (not_found_runs collection id patch w v l Hs Hl Hno)
    as ((Hg & Hu & Hd) & (Hg' & Hu' & Hd')).
  unfold read_only, result, accesses, after.
  rewrite Hg, Hu, Hd, Hg', Hu', Hd'. simpl.
  rewrite drop_app_length. repeat split.
Qed.

Lemma X19_nothing_to_find_witness :
  (result (SimpleDB.getByID "users" "z") w_readonly = inr None /\
   result (SimpleDB.update "users" "z" ∅) w_readonly = inr None /\
   result (SimpleDB.delete "users" "z") w_readonly = inr false /\
   read_only (SimpleDB.update "users" "z" ∅) w_readonly /\
   read_only (SimpleDB.delete "users" "z") w_readonly) /\
  (result (AsyncJSONFileBasedDB.getByID "users" "z") w_readonly = inr None /\
   result (AsyncJSONFileBasedDB.update "users" "z" ∅) w_readonly =
     inr None /\
   result (AsyncJSONFileBasedDB.delete "users" "z") w_readonly =
     inr false /\
   read_only (AsyncJSONFileBasedDB.update "users" "z" ∅) w_readonly /\
   read_only (AsyncJSONFileBasedDB.delete "users" "z") w_readonly).
Proof.
  apply (X19_nothing_to_find (C := tree_codec) "users" "z" ∅ w_readonly
           (Doc doc_users) [alice; bob]).
  - reflexivity.
  - reflexivity.
  - repeat constructor.
Defined.

(** X20. [delete] of an id carried by exactly one record cannot be done
    twice: the second call returns [false], reads once and writes
    nothing. In both stores. *)
Theorem X20_delete_twice {C : JSONCodec} {L : Lossless C}
    (collection id : string) (w : World) (d : Document)
    (l1 l2 : list Entity) (r : Entity) :
  stored w = inr (Doc d) -> d !! collection = Some (l1 ++ r :: l2) ->
  no_match id l1 -> has_id id r = true -> no_match id l2 ->
  wfault w = None ->
  (result (SimpleDB.delete collection id)
     (after (SimpleDB.delete collection id) w) = inr false /\
   read_only (SimpleDB.delete collection id)
     (after (SimpleDB.delete collection id) w)) /\
  (result (AsyncJSONFileBasedDB.delete collection id)
     (after (AsyncJSONFileBasedDB.delete collection id) w) = inr false /\
   read_only (AsyncJSONFileBasedDB.delete collection id)
     (after (AsyncJSONFileBasedDB.delete collection id) w)).
Proof.
  intros Hs Hc H1 Hr H2 Hw.
  destruct (delete_stored collection id w d l1 l2 r Hs Hc H1 Hr Hw)
    as [_ Hafter].
  destruct (async_delete_stored collection id w d l1 l2 r Hs Hc H1 Hr Hw)
    as [_ Hafter'].
  assert (Hno : no_match id (l1 ++ l2)).
  { apply Forall_app. split; assumption. }
  pose proof (listed_own collection _ _
                (lookup_insert_eq d collection (l1 ++ l2))) as Hl.
  set (w1 := after (SimpleDB.delete collection id) w) in *.
  set (w1' := after (AsyncJSONFileBasedDB.delete collection id) w) in *.
  destruct (not_found_runs collection id ∅ w1 _ _ Hafter Hl Hno)
    as ((_ & _ & Hd) & _).
  destruct (not_found_runs collection id ∅ w1' _ _ Hafter' Hl Hno)
    as (_ & (_ & _ & Hd')).
  unfold read_only, result, accesses, after. rewrite Hd, Hd'. simpl.
  rewrite !drop_app_length. repeat split.
Qed.

Lemma X20_delete_twice_witness :
  (result (SimpleDB.delete "users" "b")
     (after (SimpleDB.delete "users" "b") w_users) = inr false /\
   read_only (SimpleDB.delete "users" "b")
     (after (SimpleDB.delete "users" "b") w_users)) /\
  (result (AsyncJSONFileBasedDB.delete "users" "b")
     (after (AsyncJSONFileBasedDB.delete "users" "b") w_users) =
     inr false /\
   read_only (AsyncJSONFileBasedDB.delete "users" "b")
     (after (AsyncJSONFileBasedDB.delete "users" "b") w_users)).
Proof.
  apply (X20_delete_twice (C := tree_codec) (L := tree_codec_lossless)
           "users" "b" w_users doc_users [alice] [] bob).
  - reflexivity.
  - reflexivity.
  - repeat constructor.
  - reflexivity.
  - constructor.
  - reflexivity.
Defined.

(** ** Ids *)

Lemma has_id_other (id id' : string) (r : Entity) :
  has_id id r = true -> id' <> id -> has_id id' r = false.
Proof.
  intros Hr Hne. destruct (has_id id' r) eqn:Hr'; [|reflexivity].
  apply has_id_field in Hr, Hr'. congruence.
Qed.

Lemma find_skip_one (id : string) (l1 l2 : list Entity) (x : Entity) :
  has_id id x = false ->
  Array.find (has_id id) (l1 ++ x :: l2) = Array.find (has_id id) (l1 ++ l2).
Proof.
  intros Hx. induction l1 as [|y l1 IH]; simpl.
  - rewrite Hx. reflexivity.
  - rewrite IH. reflexivity.
Qed.

Lemma find_skip_last (id : string) (l : list Entity) (x : Entity) :
  has_id id x = false ->
  Array.find (has_id id) (l ++ [x]) = Array.find (has_id id) l.
Proof.
  intros Hx. rewrite find_skip_one by exact Hx. rewrite app_nil_r.
  reflexivity.
Qed.

(** X21. A patch that carries an [id] re-keys the record: after such an
    [update] the record answers to the id of the patch (when no earlier
    record does), and a lookup by the old id finds the next record that
    carries it, or nothing. In both stores. *)
Theorem X21_update_rekeys {C : JSONCodec} {L : Lossless C}
    (collection id id2 : string) (patch : Entity) (w : World)
    (d : Document) (l1 l2 : list Entity) (r : Entity) :
  stored w = inr (Doc d) -> d !! collection = Some (l1 ++ r :: l2) ->
  no_match id l1 -> has_id id r = true ->
  patch !! "id" = Some (JStr id2) -> id <> id2 -> no_match id2 l1 ->
  wfault w = None ->
  exists updated : Entity,
    updated !! "id" = Some (JStr id2) /\
    (result (SimpleDB.update collection id patch) w = inr (Some updated) /\
     result (SimpleDB.getByID collection id)
       (after (SimpleDB.update collection id patch) w) =
       inr (Array.find (has_id id) l2) /\
     result (SimpleDB.getByID collection id2)
       (after (SimpleDB.update collection id patch) w) =
       inr (Some updated)) /\
    (result (AsyncJSONFileBasedDB.update collection id patch) w =
       inr (Some updated) /\
     result (AsyncJSONFileBasedDB.getByID collection id)
       (after (AsyncJSONFileBasedDB.update collection id patch) w) =
       inr (Array.find (has_id id) l2) /\
     result (AsyncJSONFileBasedDB.getByID collection id2)
       (after (AsyncJSONFileBasedDB.update collection id patch) w) =
       inr (Some updated)).
Proof.
  intros Hs Hc H1 Hr Hp Hne H1' Hw. exists (object_spread r patch).
  assert (Hid : object_spread r patch !! "id" = Some (JStr id2)).
  { rewrite object_spread_field, Hp. reflexivity. }
  assert (Hu2 : has_id id2 (object_spread r patch) = true).
  { apply has_id_field, Hid. }
  assert (Hu : has_id id (object_spread r patch) = false).
  { apply (has_id_other id2); [exact Hu2 | exact Hne]. }
  split; [exact Hid |].
  destruct (update_stored collection id patch w d l1 l2 r Hs Hc H1 Hr Hw)
    as [Hres Hafter].
  destruct (async_update_stored collection id patch w d l1 l2 r
              Hs Hc H1 Hr Hw) as [Hres' Hafter'].
  destruct (queries_of_stored collection id _ _ _ Hafter
              (lookup_insert_eq _ _ _)) as (_ & Hg & _).
  destruct (queries_of_stored collection id2 _ _ _ Hafter
              (lookup_insert_eq _ _ _)) as (_ & Hg2 & _).
  destruct (queries_of_stored collection id _ _ _ Hafter'
              (lookup_insert_eq _ _ _)) as (_ & _ & _ & Hg').
  destruct (queries_of_stored collection id2 _ _ _ Hafter'
              (lookup_insert_eq _ _ _)) as (_ & _ & _ & Hg2').
  rewrite find_skip_one, find_skip in Hg, Hg' by assumption.
  rewrite find_first in Hg2, Hg2' by assumption.
  repeat split; assumption.
Qed.

Lemma X21_update_rekeys_witness :
  exists updated : Entity,
    updated !! "id" = Some (JStr "z") /\
    (result (SimpleDB.update "users" "a" {[ "id" := JStr "z" ]}) w_dup =
       inr (Some updated) /\
     result (SimpleDB.getByID "users" "a")
       (after (SimpleDB.update "users" "a" {[ "id" := JStr "z" ]}) w_dup) =
       inr (Array.find (has_id "a") [alias]) /\
     result (SimpleDB.getByID "users" "z")
       (after (SimpleDB.update "users" "a" {[ "id" := JStr "z" ]}) w_dup) =
       inr (Some updated)) /\
    (result (AsyncJSONFileBasedDB.update "users" "a" {[ "id" := JStr "z" ]})
       w_dup = inr (Some updated) /\
     result (AsyncJSONFileBasedDB.getByID "users" "a")
       (after (AsyncJSONFileBasedDB.update "users" "a"
                 {[ "id" := JStr "z" ]}) w_dup) =
       inr (Array.find (has_id "a") [alias]) /\
     result (AsyncJSONFileBasedDB.getByID "users" "z")
       (after (AsyncJSONFileBasedDB.update "users" "a"
                 {[ "id" := JStr "z" ]}) w_dup) =
       inr (Some updated)).
Proof.
  apply (X21_update_rekeys (C := tree_codec) (L := tree_codec_lossless)
           "users" "a" "z" {[ "id" := JStr "z" ]} w_dup doc_dup
           [bob] [alias] alice).
  - reflexivity.
  - reflexivity.
  - repeat constructor.
  - reflexivity.
  - reflexivity.
  - discriminate.
  - repeat constructor.
  - reflexivity.
Defined.

Section OtherIds.
Context {C : JSONCodec} {L : Lossless C}.
Variables (collection id' : string).

Lemma getByID_after_commit {A : Type} (l' : list Entity) (a : A)
    (w' w : World) (v : decoded) :
  stored w = inr v -> stored w' = stored w ->
  match target collection v with
  | Records l => inr (Array.find (has_id id') l)
  | Member _ => inl TypeError
  | Nullish => inr None
  end = @inr exn _ (Array.find (has_id id') l') ->
  result (SimpleDB.getByID collection id')
    (snd (commit (<[collection := l']> (spread v)) a w')) =
  result (SimpleDB.getByID collection id') w.
Proof.
  intros Hs Hw' Hfind. unfold result.
  rewrite !SimpleDB_getByID_run, stored_commit_cases.
  destruct (wfault w'); rewrite ?Hw', Hs; [reflexivity |].
  rewrite (target_own collection _ _ (lookup_insert_eq _ _ _)), Hfind.
  reflexivity.
Qed.

Lemma getByID_same_file (w1 w2 : World) :
  file w1 = file w2 ->
  result (AsyncJSONFileBasedDB.getByID collection id') w1 =
  result (SimpleDB.getByID collection id') w2.
Proof.
  intros Hf. unfold result.
  rewrite AsyncDB_getByID_run, SimpleDB_getByID_run, (stored_file _ _ Hf).
  reflexivity.
Qed.

Lemma getByID_after_read (w : World) :
  result (SimpleDB.getByID collection id') (record EvRead w) =
  result (SimpleDB.getByID collection id') w.
Proof.
  unfold result. rewrite !SimpleDB_getByID_run, stored_record.
  reflexivity.
Qed.

Lemma create_keeps_lookup (newEntity : Entity) (w : World) :
  has_id id' newEntity = false ->
  result (SimpleDB.getByID collection id')
    (after (SimpleDB.create collection newEntity) w) =
  result (SimpleDB.getByID collection id') w.
Proof.
  intros He. unfold after. rewrite SimpleDB_create_run.
  destruct (stored w) as [e|v] eqn:Hs; [apply getByID_after_read |].
  destruct (appended (target collection v) newEntity) as [e|items] eqn:Ha;
    [apply getByID_after_read |].
  apply getByID_after_commit; [exact Hs | apply stored_record |].
  destruct (target collection v) as [l|name|]; simpl in Ha;
    try discriminate; injection Ha as <-.
  - rewrite find_skip_last by exact He. reflexivity.
  - simpl. rewrite He. reflexivity.
Qed.

Lemma update_keeps_lookup (id : string) (patch : Entity) (w : World) :
  id' <> id -> patch !! "id" = None ->
  result (SimpleDB.getByID collection id')
    (after (SimpleDB.update collection id patch) w) =
  result (SimpleDB.getByID collection id') w.
Proof.
  intros Hne Hp. unfold after. rewrite SimpleDB_update_run.
  destruct (stored w) as [e|v] eqn:Hs; [apply getByID_after_read |].
  destruct (target collection v) as [l|name|] eqn:Ht;
    [|apply getByID_after_read ..].
  cbv zeta.
  destruct (Z.eqb_spec (Array.findIndex (has_id id) l) (-1)) as [Hi | Hi];
    [apply getByID_after_read |].
  destruct (first_match_split id l Hi) as (l1 & r & l2 & -> & H1 & Hr).
  rewrite findIndex_first, get_middle, set_middle by assumption.
  apply getByID_after_commit; [exact Hs | apply stored_record |].
  rewrite Ht. simpl.
  rewrite !find_skip_one; [reflexivity | |].
  - apply (has_id_other id); [|exact Hne].
    apply object_spread_keeps_id; assumption.
  - apply (has_id_other id); assumption.
Qed.

Lemma delete_keeps_lookup (id : string) (w : World) :
  id' <> id ->
  result (SimpleDB.getByID collection id')
    (after (SimpleDB.delete collection id) w) =
  result (SimpleDB.getByID collection id') w.
Proof.
  intros Hne. unfold after. rewrite SimpleDB_delete_run.
  destruct (stored w) as [e|v] eqn:Hs; [apply getByID_after_read |].
  destruct (target collection v) as [l|name|] eqn:Ht;
    [|apply getByID_after_read ..].
  cbv zeta.
  destruct (Z.eqb_spec (Array.findIndex (has_id id) l) (-1)) as [Hi | Hi];
    [apply getByID_after_read |].
  destruct (first_match_split id l Hi) as (l1 & r & l2 & -> & H1 & Hr).
  rewrite findIndex_first, splice_middle by assumption.
  apply getByID_after_commit; [exact Hs | apply stored_record |].
  rewrite Ht. rewrite find_skip_one; [reflexivity |].
  apply (has_id_other id); assumption.
Qed.

End OtherIds.

(** X22. Lookups by other ids are not disturbed: [getByID(id')] answers
    the same before and after a [create] of a record that does not carry
    [id'], and before and after an [update] (with a patch without [id])
    or a [delete] of a different id, whether that call succeeded, found
    nothing or failed. In both stores. *)
Theorem X22_other_ids_undisturbed {C : JSONCodec} {L : Lossless C}
    (collection id id' : string) (newEntity patch : Entity) (w : World) :
  has_id id' newEntity = false -> id' <> id -> patch !! "id" = None ->
  (result (SimpleDB.getByID collection id')
     (after (SimpleDB.create collection newEntity) w) =
     result (SimpleDB.getByID collection id') w /\
   result (SimpleDB.getByID collection id')
     (after (SimpleDB.update collection id patch) w) =
     result (SimpleDB.getByID collection id') w /\
   result (SimpleDB.getByID collection id')
     (after (SimpleDB.delete collection id) w) =
     result (SimpleDB.getByID collection id') w) /\
  (result (AsyncJSONFileBasedDB.getByID collection id')
     (after (AsyncJSONFileBasedDB.create collection newEntity) w) =
     result (AsyncJSONFileBasedDB.getByID collection id') w /\
   result (AsyncJSONFileBasedDB.getByID collection id')
     (after (AsyncJSONFileBasedDB.update collection id patch) w) =
     result (AsyncJSONFileBasedDB.getByID collection id') w /\
   result (AsyncJSONFileBasedDB.getByID collection id')
     (after (AsyncJSONFileBasedDB.delete collection id) w) =
     result (AsyncJSONFileBasedDB.getByID collection id') w).
Proof.
  intros He Hne Hp.
  pose proof (create_keeps_lookup collection id' newEntity w He) as Hc.
  pose proof (update_keeps_lookup collection id' id patch w Hne Hp) as Hu.
  pose proof (delete_keeps_lookup collection id' id w Hne) as Hd.
  split; [repeat split; assumption |].
  destruct (create_same_outcome collection newEntity w) as (_ & Hfc & _).
  destruct (update_same_outcome collection id patch w) as (_ & Hfu & _).
  destruct (delete_same_outcome collection id w) as (_ & Hfd & _).
  rewrite (getByID_same_file collection id' _ _ Hfc).
  rewrite (getByID_same_file collection id' _ _ Hfu).
  rewrite (getByID_same_file collection id' _ _ Hfd).
  rewrite (getByID_same_file collection id' w w eq_refl).
  repeat split; assumption.
Qed.

Lemma X22_other_ids_undisturbed_witness :
  (result (SimpleDB.getByID "users" "b")
     (after (SimpleDB.create "users" carol) w_users) =
     result (SimpleDB.getByID "users" "b") w_users /\
   result (SimpleDB.getByID "users" "b")
     (after (SimpleDB.update "users" "a" {[ "name" := JStr "Al" ]}) w_users)
     = result (SimpleDB.getByID "users" "b") w_users /\
   result (SimpleDB.getByID "users" "b")
     (after (SimpleDB.delete "users" "a") w_users) =
     result (SimpleDB.getByID "users" "b") w_users) /\
  (result (AsyncJSONFileBasedDB.getByID "users" "b")
     (after (AsyncJSONFileBasedDB.create "users" carol) w_users) =
     result (AsyncJSONFileBasedDB.getByID "users" "b") w_users /\
   result (AsyncJSONFileBasedDB.getByID "users" "b")
     (after (AsyncJSONFileBasedDB.update "users" "a"
               {[ "name" := JStr "Al" ]}) w_users) =
     result (AsyncJSONFileBasedDB.getByID "users" "b") w_users /\
   result (AsyncJSONFileBasedDB.getByID "users" "b")
     (after (AsyncJSONFileBasedDB.delete "users" "a") w_users) =
     result (AsyncJSONFileBasedDB.getByID "users" "b") w_users).
Proof.
  apply (X22_other_ids_undisturbed (C := tree_codec)
           (L := tree_codec_lossless) "users" "a" "b" carol
           {[ "name" := JStr "Al" ]} w_users).
  - reflexivity.
  - discriminate.
  - reflexivity.
Defined.
